(** * Bisection root finder: [bisection_method.py]

    A shallow embedding of [f] and [bisection_method] and the properties
    of the solver that the specification states.

    Numbers.  The Python code is generic in its number type.  It is
    modelled twice.  The first model computes on exact rationals [Q],
    which is what the code does when it is called with
    [fractions.Fraction] arguments; the properties of the control flow
    are proved there.  The second, [Float64], computes on IEEE 754
    binary64 floats, which is what the script of lines 90-151 runs; the
    properties that depend on rounding, overflow and underflow are
    settled there.  True division by zero raises [ZeroDivisionError],
    as in Python.

    Effects.  The function prints while it runs and may raise.  The lines
    written to standard output are kept as a list of [Line] values (their
    payload, not their formatting), and the outcome of a call is either a
    returned pair or a raised exception. *)

From Stdlib Require Import FunInd ZArith QArith Qabs Qminmax List Bool Lia Lqa
  Floats.

Set Warnings "-inexact-float".
Import ListNotations.

Local Open Scope Z_scope.
Local Open Scope Q_scope.

(** ** Numbers and comparisons *)

(** [x < y] on Python numbers. *)
Definition Qltb (x y : Q) : bool := negb (Qle_bool y x).

(** [x >= y] on Python numbers. *)
Definition Qgeb (x y : Q) : bool := Qle_bool y x.

Inductive Exception : Set :=
| ZeroDivisionError
| UnboundLocalError.

(** A computation that yields a value or raises. *)
Inductive Raises (A : Type) : Type :=
| Value (v : A)
| Raise (e : Exception).
Arguments Value {A} v.
Arguments Raise {A} e.

(** [x / y]: true division, raising on a zero divisor. *)
Definition truediv (x y : Q) : Raises Q :=
  if Qeq_bool y 0 then Raise ZeroDivisionError else Value (x / y).

(** ** The example function, lines 13-17 *)

Definition f (x : Q) : Q := x ^ 3 - 2 * x ^ 2 - 5 * x + 6.

(** ** Data *)

(** What [print] writes: line 39, line 59, line 62 and line 63. *)
Inductive Line : Type :=
| ErrorLine
| IterationLine (i : Z) (a b c f_c error : Q)
| RootLine (c : Q)
| ValueLine (c f_c : Q).

(** The eight parallel lists of line 42.  Lines 73-82 make them, in this
    order, the columns "Iteration", "a", "b", "c (midpoint)", "f(a)",
    "f(b)", "f(c)" and "Error (%)" of the returned DataFrame, so one
    record serves for both. *)
Record DataFrame : Type := mkDataFrame {
  iterations : list Z;
  a_list : list Q;
  b_list : list Q;
  c_list : list Q;
  f_a_list : list Q;
  f_b_list : list Q;
  f_c_list : list Q;
  err_list : list Q
}.

Definition empty_lists : DataFrame := mkDataFrame [] [] [] [] [] [] [] [].

(** One row of the table: the values appended by lines 50-57 in one
    iteration. *)
Record IterationRecord : Type := mkRecord {
  iteration : Z;
  low : Q;
  high : Q;
  midpoint : Q;
  f_low : Q;
  f_high : Q;
  f_mid : Q;
  error : Q
}.

(** Lines 50-57: one [append] on each list. *)
Definition append_row (df : DataFrame) (r : IterationRecord) : DataFrame :=
  {| iterations := iterations df ++ [iteration r];
     a_list := a_list df ++ [low r];
     b_list := b_list df ++ [high r];
     c_list := c_list df ++ [midpoint r];
     f_a_list := f_a_list df ++ [f_low r];
     f_b_list := f_b_list df ++ [f_high r];
     f_c_list := f_c_list df ++ [f_mid r];
     err_list := err_list df ++ [error r] |}.

(** Row [k] (0-based) of a table, when every column has an entry there. *)
Definition row (df : DataFrame) (k : nat) : option IterationRecord :=
  match nth_error (iterations df) k, nth_error (a_list df) k,
        nth_error (b_list df) k, nth_error (c_list df) k,
        nth_error (f_a_list df) k, nth_error (f_b_list df) k,
        nth_error (f_c_list df) k, nth_error (err_list df) k with
  | Some i, Some a, Some b, Some c, Some fa, Some fb, Some fc, Some e =>
      Some (mkRecord i a b c fa fb fc e)
  | _, _, _, _, _, _, _, _ => None
  end.

Definition nrows (df : DataFrame) : nat := length (iterations df).

(** The local variables of [bisection_method] while the loop runs.  [c] is
    unbound until line 46 has run once. *)
Record Locals : Type := mkLocals {
  var_a : Q;
  var_b : Q;
  var_c : option Q;
  c_old : Q;
  lists : DataFrame;
  stdout : list Line
}.

(** ** The loop, lines 45-71 *)

(** Line 48: [abs((c - c_old) / c) * 100 if i > 0 else 100]. *)
Definition relative_error (i : Z) (c c_prev : Q) : Raises Q :=
  if (i >? 0)%Z then
    match truediv (c - c_prev) c with
    | Value q => Value (Qabs q * 100)
    | Raise e => Raise e
    end
  else Value 100.

(** Line 61: [abs(f_c) < tolerance or error < tolerance]. *)
Definition converged (tolerance f_c err : Q) : bool :=
  Qltb (Qabs f_c) tolerance || Qltb err tolerance.

(** How one pass through the loop body ends. *)
Inductive Flow : Set :=
| Next
| Break
| Throw (e : Exception).

(** Lines 46-71 for one value of [i]. *)
Definition body (func : Q -> Q) (tolerance : Q) (i : Z) (st : Locals)
  : Flow * Locals :=
  let a := var_a st in
  let b := var_b st in
  let c := (a + b) / 2 in
  let f_a := func a in
  let f_b := func b in
  let f_c := func c in
  match relative_error i c (c_old st) with
  | Raise e =>
      (Throw e, mkLocals a b (Some c) (c_old st) (lists st) (stdout st))
  | Value err =>
      let ls := append_row (lists st)
                  (mkRecord (i + 1) a b c f_a f_b f_c err) in
      let out := stdout st ++ [IterationLine (i + 1) a b c f_c err] in
      if converged tolerance f_c err then
        (Break,
         mkLocals a b (Some c) (c_old st) ls
                  (out ++ [RootLine c; ValueLine c f_c]))
      else if Qltb (f_a * f_c) 0 then
        (Next, mkLocals a c (Some c) c ls out)
      else
        (Next, mkLocals c b (Some c) c ls out)
  end.

(** How the loop as a whole ends. *)
Inductive Exit : Set :=
| Exhausted
| Converged
| Faulted (e : Exception).

(** [for i in <indices>: body]. *)
Fixpoint for_range (func : Q -> Q) (tolerance : Q) (indices : list Z)
  (st : Locals) : Exit * Locals :=
  match indices with
  | [] => (Exhausted, st)
  | i :: rest =>
      match body func tolerance i st with
      | (Next, st') => for_range func tolerance rest st'
      | (Break, st') => (Converged, st')
      | (Throw e, st') => (Faulted e, st')
      end
  end.

(** The [m] consecutive integers from [i] on. *)
Fixpoint range_from (i : Z) (m : nat) : list Z :=
  match m with
  | O => []
  | S m' => i :: range_from (i + 1) m'
  end.

(** [range(n)]: empty when [n <= 0]. *)
Definition range (n : Z) : list Z := range_from 0 (Z.to_nat n).

(** Lines 42-43: the locals on entry to the loop. *)
Definition initial (a b : Q) : Locals :=
  mkLocals a b None a empty_lists [].

(** Lines 42-71. *)
Definition run (func : Q -> Q) (a b tolerance : Q) (max_iterations : Z)
  : Exit * Locals :=
  for_range func tolerance (range max_iterations) (initial a b).

(** The locals at the start of iteration [k + 1], when the loop gets
    there: after [k] passes that neither broke nor raised. *)
Definition state_at (func : Q -> Q) (a b tolerance : Q) (k : nat)
  : option Locals :=
  match for_range func tolerance (range_from 0 k) (initial a b) with
  | (Exhausted, st) => Some st
  | _ => None
  end.

(** ** [bisection_method], lines 23-84 *)

Inductive Result : Type :=
| Returned (root : option Q) (df : option DataFrame)
| Raised (e : Exception).

(** The call yields what it printed and how it ended.  Line 84 reads [c],
    which is unbound when the loop body never ran. *)
Definition bisection_method (func : Q -> Q) (a b tolerance : Q)
  (max_iterations : Z) : list Line * Result :=
  if Qgeb (func a * func b) 0 then ([ErrorLine], Returned None None)
  else
    match run func a b tolerance max_iterations with
    | (Faulted e, st) => (stdout st, Raised e)
    | (_, st) =>
        match var_c st with
        | Some c => (stdout st, Returned (Some c) (Some (lists st)))
        | None => (stdout st, Raised UnboundLocalError)
        end
    end.

(** The defaults of line 23: [tolerance=1e-6, max_iterations=100]. *)
Definition default_tolerance : Q := 1 # 1000000.
Definition default_max_iterations : Z := 100.

(** Number of passes through the loop body that reached line 59. *)
Definition is_iteration_line (l : Line) : bool :=
  match l with IterationLine _ _ _ _ _ _ => true | _ => false end.

Definition iterations_executed (out : list Line) : nat :=
  length (filter is_iteration_line out).

(** ** The loop as a list of rows

    [rows_from] computes, for [m] remaining values of [i] and the current
    [a], [b] and [c_old], the rows that the loop appends and how it ends.
    It is a reading aid for the proofs: [for_range_rows] below shows that
    the loop of the source appends exactly these rows. *)

(** Lines 66-69: the next bracket. *)
Definition bisect (func : Q -> Q) (a b c : Q) : Q * Q :=
  if Qltb (func a * func c) 0 then (a, c) else (c, b).

Function rows_from (func : Q -> Q) (tolerance : Q) (m : nat) (i : Z)
  (a b c_prev : Q) {struct m} : Exit * list IterationRecord :=
  match m with
  | O => (Exhausted, [])
  | S m' =>
      match relative_error i ((a + b) / 2) c_prev with
      | Raise e => (Faulted e, [])
      | Value err =>
          if converged tolerance (func ((a + b) / 2)) err then
            (Converged,
             [mkRecord (i + 1) a b ((a + b) / 2) (func a) (func b)
                       (func ((a + b) / 2)) err])
          else
            match rows_from func tolerance m' (i + 1)
                    (fst (bisect func a b ((a + b) / 2)))
                    (snd (bisect func a b ((a + b) / 2)))
                    ((a + b) / 2) with
            | (ex, rs) =>
                (ex,
                 mkRecord (i + 1) a b ((a + b) / 2) (func a) (func b)
                          (func ((a + b) / 2)) err :: rs)
            end
      end
  end.

(** The table whose rows are [rs]. *)
Definition columns (rs : list IterationRecord) : DataFrame :=
  mkDataFrame (map iteration rs) (map low rs) (map high rs)
    (map midpoint rs) (map f_low rs) (map f_high rs) (map f_mid rs)
    (map error rs).

(** The value of [c] after the rows [rs] were produced. *)
Definition last_midpoint (rs : list IterationRecord) (c0 : option Q)
  : option Q :=
  fold_left (fun _ r => Some (midpoint r)) rs c0.

(** What a row says about itself. *)
Definition row_ok (func : Q -> Q) (r : IterationRecord) : Prop :=
  midpoint r = (low r + high r) / 2 /\
  f_low r = func (low r) /\
  f_high r = func (high r) /\
  f_mid r = func (midpoint r).

(** How a row follows from the one before it. *)
Definition follows (func : Q -> Q) (tolerance : Q)
  (r r' : IterationRecord) : Prop :=
  converged tolerance (f_mid r) (error r) = false /\
  (low r', high r') = bisect func (low r) (high r) (midpoint r) /\
  ~ midpoint r' == 0 /\
  error r' = Qabs ((midpoint r' - midpoint r) / midpoint r') * 100.

(** The rows of a whole call on an accepted bracket. *)
Definition trace (func : Q -> Q) (a b tolerance : Q) (max_iterations : Z)
  : Exit * list IterationRecord :=
  rows_from func tolerance (Z.to_nat max_iterations) 0 a b a.

(** ** Concrete runs used as examples

    Two iterations of [f] on the bracket from 0 to 3/2 with tolerance
    1e-6, and the first pass on the bracket from -12 to 4, after which
    the bracket is centred at zero. *)

Definition example_row1 : IterationRecord :=
  Eval vm_compute in
    mkRecord 1 0 (3 # 2) ((0 + (3 # 2)) / 2) (f 0) (f (3 # 2))
             (f ((0 + (3 # 2)) / 2)) 100.

Definition example_row2 : IterationRecord :=
  Eval vm_compute in
    match row (lists (snd (run f 0 (3 # 2) (1 # 1000000) 2))) 1 with
    | Some r => r
    | None => example_row1
    end.

Definition example_table : DataFrame :=
  Eval vm_compute in lists (snd (run f 0 (3 # 2) (1 # 1000000) 2)).

Definition example_output : list Line :=
  Eval vm_compute in fst (bisection_method f 0 (3 # 2) (1 # 1000000) 2).

Definition example_state : Locals :=
  Eval vm_compute in
    snd (for_range f (1 # 1000000) (range_from 0 1) (initial (-12) 4)).

(** ** Reading a run: the printed lines *)

(** The line that line 59 prints for the row [r]. *)
Definition line_of (r : IterationRecord) : Line :=
  IterationLine (iteration r) (low r) (high r) (midpoint r) (f_mid r)
                (error r).

(** What lines 62-63 print, which they do only on the way to [break]. *)
Definition closing_lines (ex : Exit) (c f_c : Q) : list Line :=
  match ex with
  | Converged => [RootLine c; ValueLine c f_c]
  | _ => []
  end.

(** Everything the loop prints while it appends the rows [rs] and ends
    with [ex]. *)
Fixpoint narration (ex : Exit) (rs : list IterationRecord) : list Line :=
  match rs with
  | [] => []
  | r :: rest =>
      line_of r ::
      match rest with
      | [] => closing_lines ex (midpoint r) (f_mid r)
      | _ :: _ => narration ex rest
      end
  end.

(** ** The same function on Python floats

    The script calls [bisection_method] with the integers 0 and 2, and
    line 46 turns them into floats: the program computes on IEEE 754
    binary64 numbers.  [Float64] is the function of lines 23-84 once
    more, now on Rocq's primitive binary64 floats, whose [+], [-], [*]
    and [/] round to nearest even as Python's do.  Python raises
    [ZeroDivisionError] for a float divisor equal to zero (of either
    sign) and overflows silently to [inf]; comparisons with [nan] are
    false. *)

Module Float64.

Local Open Scope float_scope.

(** [x / y] on floats. *)
Definition truediv (x y : float) : Raises float :=
  if (y =? 0) then Raise ZeroDivisionError else Value (x / y).

Inductive Line : Type :=
| ErrorLine
| IterationLine (i : Z) (a b c f_c error : float)
| RootLine (c : float)
| ValueLine (c f_c : float).

Record DataFrame : Type := mkDataFrame {
  iterations : list Z;
  a_list : list float;
  b_list : list float;
  c_list : list float;
  f_a_list : list float;
  f_b_list : list float;
  f_c_list : list float;
  err_list : list float
}.

Definition empty_lists : DataFrame := mkDataFrame [] [] [] [] [] [] [] [].

Record IterationRecord : Type := mkRecord {
  iteration : Z;
  low : float;
  high : float;
  midpoint : float;
  f_low : float;
  f_high : float;
  f_mid : float;
  error : float
}.

(** Lines 50-57. *)
Definition append_row (df : DataFrame) (r : IterationRecord) : DataFrame :=
  {| iterations := iterations df ++ [iteration r];
     a_list := a_list df ++ [low r];
     b_list := b_list df ++ [high r];
     c_list := c_list df ++ [midpoint r];
     f_a_list := f_a_list df ++ [f_low r];
     f_b_list := f_b_list df ++ [f_high r];
     f_c_list := f_c_list df ++ [f_mid r];
     err_list := err_list df ++ [error r] |}.

Definition row (df : DataFrame) (k : nat) : option IterationRecord :=
  match nth_error (iterations df) k, nth_error (a_list df) k,
        nth_error (b_list df) k, nth_error (c_list df) k,
        nth_error (f_a_list df) k, nth_error (f_b_list df) k,
        nth_error (f_c_list df) k, nth_error (err_list df) k with
  | Some i, Some a, Some b, Some c, Some fa, Some fb, Some fc, Some e =>
      Some (mkRecord i a b c fa fb fc e)
  | _, _, _, _, _, _, _, _ => None
  end.

Definition nrows (df : DataFrame) : nat := length (iterations df).

Record Locals : Type := mkLocals {
  var_a : float;
  var_b : float;
  var_c : option float;
  c_old : float;
  lists : DataFrame;
  stdout : list Line
}.

(** Line 48. *)
Definition relative_error (i : Z) (c c_prev : float) : Raises float :=
  if (i >? 0)%Z then
    match truediv (c - c_prev) c with
    | Value q => Value (abs q * 100)
    | Raise e => Raise e
    end
  else Value 100.

(** Line 61. *)
Definition converged (tolerance f_c err : float) : bool :=
  (abs f_c <? tolerance) || (err <? tolerance).

(** Lines 46-71 for one value of [i]. *)
Definition body (func : float -> float) (tolerance : float) (i : Z)
  (st : Locals) : Flow * Locals :=
  let a := var_a st in
  let b := var_b st in
  let c := (a + b) / 2 in
  let f_a := func a in
  let f_b := func b in
  let f_c := func c in
  match relative_error i c (c_old st) with
  | Raise e =>
      (Throw e, mkLocals a b (Some c) (c_old st) (lists st) (stdout st))
  | Value err =>
      let ls := append_row (lists st)
                  (mkRecord (i + 1) a b c f_a f_b f_c err) in
      let out := stdout st ++ [IterationLine (i + 1) a b c f_c err] in
      if converged tolerance f_c err then
        (Break,
         mkLocals a b (Some c) (c_old st) ls
                  (out ++ [RootLine c; ValueLine c f_c]))
      else if (f_a * f_c <? 0) then
        (Next, mkLocals a c (Some c) c ls out)
      else
        (Next, mkLocals c b (Some c) c ls out)
  end.

Fixpoint for_range (func : float -> float) (tolerance : float)
  (indices : list Z) (st : Locals) : Exit * Locals :=
  match indices with
  | [] => (Exhausted, st)
  | i :: rest =>
      match body func tolerance i st with
      | (Next, st') => for_range func tolerance rest st'
      | (Break, st') => (Converged, st')
      | (Throw e, st') => (Faulted e, st')
      end
  end.

(** Lines 42-43. *)
Definition initial (a b : float) : Locals :=
  mkLocals a b None a empty_lists [].

(** Lines 42-71. *)
Definition run (func : float -> float) (a b tolerance : float)
  (max_iterations : Z) : Exit * Locals :=
  for_range func tolerance (range max_iterations) (initial a b).

(** The locals at the start of iteration [k + 1], when the loop gets
    there. *)
Definition state_at (func : float -> float) (a b tolerance : float)
  (k : nat) : option Locals :=
  match for_range func tolerance (range_from 0 k) (initial a b) with
  | (Exhausted, st) => Some st
  | _ => None
  end.

Inductive Result : Type :=
| Returned (root : option float) (df : option DataFrame)
| Raised (e : Exception).

(** Lines 23-84.  [x >= 0] is [0 <= x], false for [nan]. *)
Definition bisection_method (func : float -> float)
  (a b tolerance : float) (max_iterations : Z) : list Line * Result :=
  if (0 <=? func a * func b) then ([ErrorLine], Returned None None)
  else
    match run func a b tolerance max_iterations with
    | (Faulted e, st) => (stdout st, Raised e)
    | (_, st) =>
        match var_c st with
        | Some c => (stdout st, Returned (Some c) (Some (lists st)))
        | None => (stdout st, Raised UnboundLocalError)
        end
    end.

(** Lines 66-69: the next bracket. *)
Definition bisect (func : float -> float) (a b c : float)
  : float * float :=
  if (func a * func c <? 0) then (a, c) else (c, b).

(** The rows the loop appends and how it ends, as [rows_from] above. *)
Fixpoint rows_from (func : float -> float) (tolerance : float) (m : nat)
  (i : Z) (a b c_prev : float) : Exit * list IterationRecord :=
  match m with
  | O => (Exhausted, [])
  | S m' =>
      match relative_error i ((a + b) / 2) c_prev with
      | Raise e => (Faulted e, [])
      | Value err =>
          if converged tolerance (func ((a + b) / 2)) err then
            (Converged,
             [mkRecord (i + 1) a b ((a + b) / 2) (func a) (func b)
                       (func ((a + b) / 2)) err])
          else
            match rows_from func tolerance m' (i + 1)
                    (fst (bisect func a b ((a + b) / 2)))
                    (snd (bisect func a b ((a + b) / 2)))
                    ((a + b) / 2) with
            | (ex, rs) =>
                (ex,
                 mkRecord (i + 1) a b ((a + b) / 2) (func a) (func b)
                          (func ((a + b) / 2)) err :: rs)
            end
      end
  end.

Definition columns (rs : list IterationRecord) : DataFrame :=
  mkDataFrame (map iteration rs) (map low rs) (map high rs)
    (map midpoint rs) (map f_low rs) (map f_high rs) (map f_mid rs)
    (map error rs).

Definition last_midpoint (rs : list IterationRecord) (c0 : option float)
  : option float :=
  fold_left (fun _ r => Some (midpoint r)) rs c0.

Definition trace (func : float -> float) (a b tolerance : float)
  (max_iterations : Z) : Exit * list IterationRecord :=
  rows_from func tolerance (Z.to_nat max_iterations) 0 a b a.


(** The real number a finite float stands for (0 for [inf] and [nan]). *)
Definition exact (x : float) : Q :=
  match Prim2SF x with
  | S754_finite s m e =>
      ((if s then -1 else 1) * inject_Z (Z.pos m) * 2 ^ e)%Q
  | _ => 0%Q
  end.









End Float64.

(** The number of times the loop enters its body: once for every value
    of [i] that the [for] statement takes before the loop ends. *)
Fixpoint passes (func : Q -> Q) (tolerance : Q) (indices : list Z)
  (st : Locals) : nat :=
  match indices with
  | [] => 0
  | i :: rest =>
      S (match body func tolerance i st with
         | (Next, st') => passes func tolerance rest st'
         | _ => 0%nat
         end)
  end.

(** * Properties *)

(** ** Comparisons *)

Lemma Qltb_lt (x y : Q) : Qltb x y = true <-> x < y.
Proof.
  unfold Qltb. rewrite negb_true_iff, <- not_true_iff_false, Qle_bool_iff.
  split; [apply Qnot_le_lt | apply Qlt_not_le].
Qed.

Lemma Qltb_ge (x y : Q) : Qltb x y = false <-> y <= x.
Proof.
  unfold Qltb. rewrite negb_false_iff. apply Qle_bool_iff.
Qed.

Lemma Qgeb_ge (x y : Q) : Qgeb x y = true <-> y <= x.
Proof. unfold Qgeb. apply Qle_bool_iff. Qed.

Lemma Qgeb_lt (x y : Q) : Qgeb x y = false <-> x < y.
Proof.
  unfold Qgeb. rewrite <- not_true_iff_false, Qle_bool_iff.
  split; [apply Qnot_le_lt | apply Qlt_not_le].
Qed.

Lemma converged_true (tolerance f_c err : Q) :
  converged tolerance f_c err = true <->
  Qabs f_c < tolerance \/ err < tolerance.
Proof.
  unfold converged. rewrite orb_true_iff, !Qltb_lt. reflexivity.
Qed.

Lemma converged_false (tolerance f_c err : Q) :
  converged tolerance f_c err = false <->
  tolerance <= Qabs f_c /\ tolerance <= err.
Proof.
  unfold converged. rewrite orb_false_iff, !Qltb_ge. reflexivity.
Qed.

(** ** Line 48 *)

Lemma truediv_value (x y q : Q) :
  truediv x y = Value q -> ~ y == 0 /\ q = x / y.
Proof.
  unfold truediv. destruct (Qeq_bool y 0) eqn:E; [discriminate|].
  intros [= <-]. split; [|reflexivity].
  intro H. apply Qeq_bool_iff in H. congruence.
Qed.

Lemma truediv_raise (x y : Q) (e : Exception) :
  truediv x y = Raise e -> y == 0 /\ e = ZeroDivisionError.
Proof.
  unfold truediv. destruct (Qeq_bool y 0) eqn:E; [|discriminate].
  intros [= <-]. split; [apply Qeq_bool_iff, E | reflexivity].
Qed.

Lemma relative_error_first (c c_prev : Q) :
  relative_error 0 c c_prev = Value 100.
Proof. reflexivity. Qed.

Lemma relative_error_later (i : Z) (c c_prev err : Q) :
  (0 < i)%Z -> relative_error i c c_prev = Value err ->
  ~ c == 0 /\ err = Qabs ((c - c_prev) / c) * 100.
Proof.
  intros Hi. unfold relative_error.
  destruct (Z.gtb_spec i 0) as [_|]; [|lia].
  destruct (truediv (c - c_prev) c) as [q|e] eqn:E; [|discriminate].
  intros [= <-]. apply truediv_value in E as [Hc ->]. now split.
Qed.

Lemma relative_error_raise (i : Z) (c c_prev : Q) (e : Exception) :
  relative_error i c c_prev = Raise e ->
  (0 < i)%Z /\ c == 0 /\ e = ZeroDivisionError.
Proof.
  unfold relative_error.
  destruct (Z.gtb_spec i 0) as [Hi|]; [|discriminate].
  destruct (truediv (c - c_prev) c) as [q|e'] eqn:E; [discriminate|].
  intros [= <-]. apply truediv_raise in E as [Hc ->]. now repeat split.
Qed.

Lemma relative_error_zero (i : Z) (c c_prev : Q) :
  (0 < i)%Z -> c == 0 ->
  relative_error i c c_prev = Raise ZeroDivisionError.
Proof.
  intros Hi Hc. unfold relative_error, truediv.
  destruct (Z.gtb_spec i 0) as [_|]; [|lia].
  apply Qeq_bool_iff in Hc. now rewrite Hc.
Qed.

Lemma relative_error_nonneg (i : Z) (c c_prev err : Q) :
  relative_error i c c_prev = Value err -> 0 <= err.
Proof.
  unfold relative_error. destruct (i >? 0)%Z.
  - destruct (truediv (c - c_prev) c) as [q|]; [|discriminate].
    intros [= <-]. pose proof (Qabs_nonneg q). nra.
  - intros [= <-]. discriminate.
Qed.

(** ** The loop appends the rows of [rows_from] *)

Lemma fold_append_row (rs : list IterationRecord) (df : DataFrame) :
  fold_left append_row rs df =
  mkDataFrame (iterations df ++ map iteration rs)
    (a_list df ++ map low rs) (b_list df ++ map high rs)
    (c_list df ++ map midpoint rs) (f_a_list df ++ map f_low rs)
    (f_b_list df ++ map f_high rs) (f_c_list df ++ map f_mid rs)
    (err_list df ++ map error rs).
Proof.
  revert df. induction rs as [|r rs IH]; intros df; simpl.
  - rewrite !app_nil_r. now destruct df.
  - rewrite IH. simpl. now rewrite <- !app_assoc.
Qed.

Lemma fold_append_row_empty (rs : list IterationRecord) :
  fold_left append_row rs empty_lists = columns rs.
Proof. now rewrite fold_append_row. Qed.

Lemma row_columns (rs : list IterationRecord) (k : nat) :
  row (columns rs) k = nth_error rs k.
Proof.
  unfold row, columns; simpl. rewrite !nth_error_map.
  destruct (nth_error rs k) as [[]|]; reflexivity.
Qed.

Lemma nrows_columns (rs : list IterationRecord) :
  nrows (columns rs) = length rs.
Proof. unfold nrows, columns; simpl. apply length_map. Qed.

Section Loop.

Variable func : Q -> Q.
Variable tolerance : Q.

Lemma for_range_rows (m : nat) :
  forall (i : Z) (st : Locals),
    let res := for_range func tolerance (range_from i m) st in
    let rr := rows_from func tolerance m i (var_a st) (var_b st) (c_old st) in
    fst res = fst rr /\
    lists (snd res) = fold_left append_row (snd rr) (lists st) /\
    ((forall e, fst rr <> Faulted e) ->
     var_c (snd res) = last_midpoint (snd rr) (var_c st)).
Proof.
  induction m as [|m IH]; intros i st; simpl.
  - repeat split.
  - unfold body.
    destruct (relative_error i ((var_a st + var_b st) / 2) (c_old st))
      as [err|e] eqn:Herr; simpl.
    + destruct (converged tolerance (func ((var_a st + var_b st) / 2)) err)
        eqn:Hconv; simpl.
      * repeat split.
      * unfold bisect.
        destruct (Qltb (func (var_a st) * func ((var_a st + var_b st) / 2)) 0);
          simpl;
          match goal with
          | |- context [for_range _ _ _ ?s] =>
              specialize (IH (i + 1)%Z s); simpl in IH
          end;
          destruct (rows_from func tolerance m (i + 1) _ _ _) as [ex rs];
          simpl in *; exact IH.
    + repeat split. intros H. now elim (H e).
Qed.

End Loop.

(** ** What the rows of [rows_from] look like *)

Section Rows.

Variable func : Q -> Q.
Variable tolerance : Q.

Local Abbreviation rows := (rows_from func tolerance).

Ltac rows_induction m i a b cp :=
  functional induction (rows_from func tolerance m i a b cp);
  simpl in *;
  repeat match goal with
         | E : rows_from _ _ _ _ _ _ _ = (_, _), H : context [rows_from] |- _ =>
             rewrite E in H; simpl in H
         end.

Lemma rows_length (m : nat) (i : Z) (a b cp : Q) :
  (length (snd (rows m i a b cp)) <= m)%nat /\
  (fst (rows m i a b cp) = Exhausted ->
   length (snd (rows m i a b cp)) = m).
Proof.
  rows_induction m i a b cp.
  - split; [lia | reflexivity].
  - split; [lia | discriminate].
  - split; [lia | discriminate].
  - destruct IHp as [IH1 IH2]. split; [lia | intros H; now rewrite IH2].
Qed.

Lemma rows_numbering (m : nat) (i : Z) (a b cp : Q) :
  map iteration (snd (rows m i a b cp)) =
  range_from (i + 1) (length (snd (rows m i a b cp))).
Proof.
  rows_induction m i a b cp; try reflexivity.
  now rewrite IHp.
Qed.

Lemma rows_row_ok (m : nat) (i : Z) (a b cp : Q) :
  Forall (row_ok func) (snd (rows m i a b cp)).
Proof.
  rows_induction m i a b cp; repeat constructor; auto.
Qed.

Lemma rows_head (m : nat) (i : Z) (a b cp : Q) (r : IterationRecord) :
  nth_error (snd (rows m i a b cp)) 0 = Some r ->
  low r = a /\ high r = b /\
  relative_error i (midpoint r) cp = Value (error r).
Proof.
  rows_induction m i a b cp; try discriminate;
    intros [= <-]; simpl; auto.
Qed.

Lemma rows_first (m : nat) (a b cp : Q) :
  snd (rows (S m) 0 a b cp) <> [].
Proof.
  rewrite rows_from_equation, relative_error_first.
  destruct (converged _ _ _); [discriminate|].
  destruct (rows_from _ _ _ _ _ _ _). discriminate.
Qed.

Lemma rows_follows (m : nat) (i : Z) (a b cp : Q) :
  (0 <= i)%Z ->
  forall (k : nat) (r r' : IterationRecord),
    nth_error (snd (rows m i a b cp)) k = Some r ->
    nth_error (snd (rows m i a b cp)) (S k) = Some r' ->
    follows func tolerance r r'.
Proof.
  rows_induction m i a b cp; intros Hi k r r' Hr Hr'.
  - destruct k; discriminate.
  - destruct k; discriminate.
  - destruct k; simpl in *; [discriminate | now destruct k].
  - destruct k as [|k]; simpl in *.
    + injection Hr as <-. 
      pose proof (rows_head m' (i + 1)
                    (fst (bisect func a b ((a + b) / 2)))
                    (snd (bisect func a b ((a + b) / 2)))
                    ((a + b) / 2) r') as Hh.
      match goal with
      | E : rows_from _ _ _ _ _ _ _ = _ |- _ => rewrite E in Hh
      end.
      destruct (Hh Hr') as (Hl & Hh' & He).
      apply relative_error_later in He as [Hc He]; [|lia].
      unfold follows; simpl. repeat split; auto.
      rewrite Hl, Hh'. now destruct (bisect _ _ _ _).
    + apply (IHp ltac:(lia) k); assumption.
Qed.

Lemma rows_empty_exit (m : nat) (i : Z) (a b cp : Q) :
  snd (rows m i a b cp) = [] -> fst (rows m i a b cp) <> Converged.
Proof.
  rows_induction m i a b cp; discriminate.
Qed.

Lemma rows_last (m : nat) (i : Z) (a b cp : Q) (r : IterationRecord) :
  nth_error (snd (rows m i a b cp))
            (pred (length (snd (rows m i a b cp)))) = Some r ->
  (converged tolerance (f_mid r) (error r) = true <->
   fst (rows m i a b cp) = Converged).
Proof.
  rows_induction m i a b cp; try discriminate.
  - intros [= <-]; simpl. tauto.
  - destruct rs as [|r1 rs]; simpl in *.
    + intros [= <-]; simpl.
      match goal with
      | E : converged _ _ _ = false |- _ => rewrite E
      end.
      pose proof (rows_empty_exit m' (i + 1)
                    (fst (bisect func a b ((a + b) / 2)))
                    (snd (bisect func a b ((a + b) / 2)))
                    ((a + b) / 2)) as He.
      match goal with
      | E : rows_from _ _ _ _ _ _ _ = _ |- _ => rewrite E in He
      end.
      simpl in He. split; [discriminate|].
      intros H. now elim He.
    + exact IHp.
Qed.

Lemma rows_fault (m : nat) (i : Z) (a b cp : Q) (e : Exception) :
  fst (rows m i a b cp) = Faulted e -> e = ZeroDivisionError.
Proof.
  rows_induction m i a b cp; try discriminate; auto.
  intros [= <-].
  match goal with
  | E : relative_error _ _ _ = Raise _ |- _ =>
      now apply relative_error_raise in E
  end.
Qed.

Lemma rows_nonpositive_tolerance (m : nat) (i : Z) (a b cp : Q) :
  tolerance <= 0 -> fst (rows m i a b cp) <> Converged.
Proof.
  intros Ht. rows_induction m i a b cp; try discriminate; auto.
  match goal with
  | E : converged _ _ _ = true, E' : relative_error _ _ _ = Value _ |- _ =>
      apply converged_true in E; apply relative_error_nonneg in E'
  end.
  pose proof (Qabs_nonneg (func ((a + b) / 2))). lra.
Qed.

End Rows.

Lemma last_midpoint_cons (rs : list IterationRecord) (c0 : option Q)
  (r : IterationRecord) :
  nth_error rs (pred (length rs)) = Some r ->
  last_midpoint rs c0 = Some (midpoint r).
Proof.
  unfold last_midpoint. revert c0.
  induction rs as [|r0 rs IH]; intros c0; simpl; [discriminate|].
  destruct rs as [|r1 rs]; simpl in *.
  - now intros [= <-].
  - intros H. now apply IH.
Qed.

Lemma last_row_exists (rs : list IterationRecord) :
  rs <> [] -> exists r, nth_error rs (pred (length rs)) = Some r.
Proof.
  intros H. destruct (nth_error rs (pred (length rs))) as [r|] eqn:E.
  - now exists r.
  - apply nth_error_None in E. destruct rs; [congruence | simpl in E; lia].
Qed.

(** ** The whole call *)

Lemma run_trace (func : Q -> Q) (a b tolerance : Q) (n : Z) :
  fst (run func a b tolerance n) = fst (trace func a b tolerance n) /\
  lists (snd (run func a b tolerance n)) =
    columns (snd (trace func a b tolerance n)) /\
  ((forall e, fst (trace func a b tolerance n) <> Faulted e) ->
   var_c (snd (run func a b tolerance n)) =
     last_midpoint (snd (trace func a b tolerance n)) None).
Proof.
  unfold run, range, trace.
  destruct (for_range_rows func tolerance (Z.to_nat n) 0 (initial a b))
    as (H1 & H2 & H3).
  simpl in *. now rewrite <- fold_append_row_empty.
Qed.

Lemma bisection_method_accepted (func : Q -> Q) (a b tolerance : Q) (n : Z) :
  func a * func b < 0 ->
  bisection_method func a b tolerance n =
  (stdout (snd (run func a b tolerance n)),
   match fst (trace func a b tolerance n) with
   | Faulted e => Raised e
   | _ =>
       match last_midpoint (snd (trace func a b tolerance n)) None with
       | Some c =>
           Returned (Some c)
                    (Some (columns (snd (trace func a b tolerance n))))
       | None => Raised UnboundLocalError
       end
   end).
Proof.
  intros Hab. unfold bisection_method.
  apply Qgeb_lt in Hab. rewrite Hab.
  destruct (run_trace func a b tolerance n) as (H1 & H2 & H3).
  destruct (run func a b tolerance n) as [ex st]; simpl in *.
  rewrite <- H1.
  destruct ex; try reflexivity;
    (rewrite H3, H2 by (rewrite <- H1; discriminate);
     now destruct (last_midpoint _ _)).
Qed.

Lemma bisection_method_lists (func : Q -> Q) (a b tolerance : Q) (n : Z)
  (root : option Q) (d : DataFrame) :
  snd (bisection_method func a b tolerance n) = Returned root (Some d) ->
  d = lists (snd (run func a b tolerance n)).
Proof.
  unfold bisection_method.
  destruct (Qgeb (func a * func b) 0); simpl; [discriminate|].
  destruct (run func a b tolerance n) as [[| |e] st]; simpl;
    try discriminate; destruct (var_c st); simpl; congruence.
Qed.

Lemma trace_first (func : Q -> Q) (a b tolerance : Q) (n : Z) :
  (0 < n)%Z -> snd (trace func a b tolerance n) <> [].
Proof.
  intros Hn. unfold trace.
  destruct (Z.to_nat n) as [|m] eqn:E; [lia|]. apply rows_first.
Qed.

Lemma last_midpoint_some (rs : list IterationRecord) (c : Q) :
  last_midpoint rs None = Some c ->
  exists r, nth_error rs (pred (length rs)) = Some r /\ midpoint r = c.
Proof.
  intros H. destruct rs as [|r0 rs]; [discriminate|].
  destruct (last_row_exists (r0 :: rs)) as [r Hr]; [discriminate|].
  exists r. split; [exact Hr|].
  rewrite (last_midpoint_cons _ None r Hr) in H. congruence.
Qed.

(** ** Standard output and the lists grow together *)

Lemma iterations_executed_app (xs ys : list Line) :
  iterations_executed (xs ++ ys) =
  (iterations_executed xs + iterations_executed ys)%nat.
Proof. unfold iterations_executed. now rewrite filter_app, length_app. Qed.

Lemma for_range_stdout (func : Q -> Q) (tolerance : Q) (indices : list Z) :
  forall st : Locals,
    let st' := snd (for_range func tolerance indices st) in
    (iterations_executed (stdout st') + nrows (lists st) =
     iterations_executed (stdout st) + nrows (lists st'))%nat.
Proof.
  induction indices as [|i rest IH]; intros st; simpl; [reflexivity|].
  unfold body.
  destruct (relative_error _ _ _) as [err|e]; simpl; [|reflexivity].
  destruct (converged _ _ _); simpl.
  - unfold nrows; simpl.
    rewrite !iterations_executed_app, length_app; simpl.
    unfold iterations_executed at 2 3; simpl. lia.
  - destruct (Qltb _ _);
      match goal with
      | |- context [for_range _ _ _ ?s] => specialize (IH s)
      end;
      simpl in IH; unfold nrows in *; simpl in IH;
      rewrite iterations_executed_app, length_app in IH;
      unfold iterations_executed at 3 in IH; simpl in IH; lia.
Qed.

(** ** Splitting the loop *)

Lemma range_from_app (k m : nat) :
  forall i : Z,
    range_from i (k + m) = range_from i k ++ range_from (i + Z.of_nat k) m.
Proof.
  induction k as [|k IH]; intros i.
  - simpl. now rewrite Z.add_0_r.
  - cbn [Nat.add range_from app]. rewrite IH. do 3 f_equal. lia.
Qed.

Lemma for_range_app (func : Q -> Q) (tolerance : Q) (xs ys : list Z) :
  forall st : Locals,
    for_range func tolerance (xs ++ ys) st =
    match for_range func tolerance xs st with
    | (Exhausted, st') => for_range func tolerance ys st'
    | other => other
    end.
Proof.
  induction xs as [|i xs IH]; intros st; simpl; [reflexivity|].
  destruct (body func tolerance i st) as [[| |e] st']; auto.
Qed.

(** ** Passes through the loop body and rows *)

Lemma passes_rows (func : Q -> Q) (tolerance : Q) (m : nat) :
  forall (i : Z) (st : Locals),
    let rr := rows_from func tolerance m i (var_a st) (var_b st) (c_old st) in
    passes func tolerance (range_from i m) st =
    (length (snd rr) +
     match fst rr with Faulted _ => 1 | _ => 0 end)%nat.
Proof.
  induction m as [|m IH]; intros i st; simpl; [reflexivity|].
  unfold body.
  destruct (relative_error i ((var_a st + var_b st) / 2) (c_old st))
    as [err|e]; simpl; [|reflexivity].
  destruct (converged tolerance (func ((var_a st + var_b st) / 2)) err);
    simpl; [reflexivity|].
  unfold bisect.
  destruct (Qltb (func (var_a st) * func ((var_a st + var_b st) / 2)) 0);
    simpl;
    match goal with
    | |- context [passes _ _ _ ?s] =>
        specialize (IH (i + 1)%Z s); simpl in IH
    end;
    destruct (rows_from func tolerance m (i + 1) _ _ _) as [ex rs];
    simpl in *; now rewrite IH.
Qed.

(** ** The scenarios of the specification *)

(** The call of line 102: the first midpoint is the root 1. *)
Example main_run :
  exists c d,
    snd (bisection_method f 0 2 (1 # 1000000) 50) =
      Returned (Some c) (Some d) /\
    c == 1 /\ f c == 0 /\ nrows d = 1%nat.
Proof.
  do 2 eexists. split; [vm_compute; reflexivity|].
  repeat split; vm_compute; reflexivity.
Qed.

Example zero_width_bracket :
  bisection_method f 0 0 (1 # 1000000) 50 = ([ErrorLine], Returned None None).
Proof. vm_compute; reflexivity. Qed.

Example same_sign_bracket :
  bisection_method f (-3) (-2) (1 # 1000000) 50 =
    ([ErrorLine], Returned None None).
Proof. vm_compute; reflexivity. Qed.

(** With an empty [range] the body never binds [c], and line 84 fails. *)
Example empty_budget :
  bisection_method f 0 2 (1 # 1000000) 0 = ([], Raised UnboundLocalError).
Proof. vm_compute; reflexivity. Qed.

Lemma trace_last_row (func : Q -> Q) (a b tolerance : Q) (n : Z) :
  (0 < n)%Z ->
  exists r,
    nth_error (snd (trace func a b tolerance n))
              (pred (length (snd (trace func a b tolerance n)))) = Some r /\
    last_midpoint (snd (trace func a b tolerance n)) None =
      Some (midpoint r) /\
    row_ok func r.
Proof.
  intros Hn.
  destruct (last_row_exists _ (trace_first func a b tolerance n Hn))
    as [r Hr].
  exists r. split; [exact Hr|]. split.
  - now apply last_midpoint_cons.
  - pose proof (rows_row_ok func tolerance (Z.to_nat n) 0 a b a) as Hok.
    rewrite Forall_forall in Hok. apply Hok.
    eapply nth_error_In. exact Hr.
Qed.

Lemma trace_length (func : Q -> Q) (a b tolerance : Q) (n : Z) :
  (0 < n)%Z ->
  (Z.of_nat (length (snd (trace func a b tolerance n))) <= n)%Z /\
  (fst (trace func a b tolerance n) = Exhausted ->
   Z.of_nat (length (snd (trace func a b tolerance n))) = n).
Proof.
  intros Hn. unfold trace.
  destruct (rows_length func tolerance (Z.to_nat n) 0 a b a) as [H1 H2].
  split; [lia|]. intros H. rewrite (H2 H). lia.
Qed.

(** * The claims *)

(** ** C1 *)

(** C1, as stated, fails: with the budget exhausted the call returns a
    midpoint that meets neither tolerance test.  Here one iteration on
    [f] over [0, 3/2] returns [3/4], where [f] is about 1.55 and the
    error field is the sentinel 100. *)
Lemma C1_counterexample :
  f 0 * f (3 # 2) < 0 /\ 0 < (1 # 1000000) /\ (0 < 1)%Z /\
  exists d r,
    snd (bisection_method f 0 (3 # 2) (1 # 1000000) 1) =
      Returned (Some (3 # 4)) (Some d) /\
    nrows d = 1%nat /\ row d 0 = Some r /\
    ~ (Qabs (f (3 # 4)) < (1 # 1000000) \/ error r < (1 # 1000000)).
Proof.
  split; [vm_compute; reflexivity|].
  split; [vm_compute; reflexivity|].
  split; [lia|].
  eexists. eexists.
  split; [vm_compute; reflexivity|].
  split; [reflexivity|].
  split; [vm_compute; reflexivity|].
  intros [H|H]; vm_compute in H; discriminate.
Qed.

(** C1, amended: on an accepted bracket with a positive tolerance and a
    positive budget the call runs at most [max_iterations] iterations and
    ends in one of two ways.  Either it raises [ZeroDivisionError] (a
    zero midpoint after the first iteration), or it returns the midpoint
    [c] of the last row, and then [|f(c)| < tolerance], or the row's
    error is below the tolerance, or the budget was used up. *)
Theorem bisection_method_terminates_C1
  (func : Q -> Q) (a b tolerance : Q) (max_iterations : Z) :
  func a * func b < 0 -> 0 < tolerance -> (0 < max_iterations)%Z ->
  match snd (bisection_method func a b tolerance max_iterations) with
  | Raised e => e = ZeroDivisionError
  | Returned root df =>
      exists c d r,
        root = Some c /\ df = Some d /\
        (Z.of_nat (nrows d) <= max_iterations)%Z /\
        row d (pred (nrows d)) = Some r /\
        midpoint r = c /\ f_mid r = func c /\
        (Qabs (func c) < tolerance \/ error r < tolerance \/
         Z.of_nat (nrows d) = max_iterations)
  end.
Proof.
  intros Hab _ Hn. rewrite (bisection_method_accepted _ _ _ _ _ Hab).
  cbn [snd].
  destruct (trace_last_row func a b tolerance max_iterations Hn)
    as (r & Hr & Hc & Hok).
  destruct (trace_length func a b tolerance max_iterations Hn)
    as [Hlen Hfull].
  pose proof (rows_last func tolerance (Z.to_nat max_iterations) 0 a b a r Hr)
    as Hlast.
  pose proof (rows_fault func tolerance (Z.to_nat max_iterations) 0 a b a)
    as Hfault.
  fold (trace func a b tolerance max_iterations) in Hlast, Hfault.
  destruct Hok as (_ & _ & _ & Hfm).
  destruct (fst (trace func a b tolerance max_iterations)) as [| |e].
  - rewrite Hc.
    exists (midpoint r),
      (columns (snd (trace func a b tolerance max_iterations))), r.
    rewrite nrows_columns, row_columns. repeat split; auto.
  - rewrite Hc.
    exists (midpoint r),
      (columns (snd (trace func a b tolerance max_iterations))), r.
    rewrite nrows_columns, row_columns. repeat split; auto.
    destruct Hlast as [_ Hlast]. specialize (Hlast eq_refl).
    apply converged_true in Hlast. rewrite <- Hfm. tauto.
  - now apply Hfault.
Qed.

Lemma C1_witness :
  f 0 * f 2 < 0 /\ 0 < (1 # 1000000) /\ (0 < 50)%Z /\
  match snd (bisection_method f 0 2 (1 # 1000000) 50) with
  | Raised e => e = ZeroDivisionError
  | Returned root df =>
      exists c d r,
        root = Some c /\ df = Some d /\
        (Z.of_nat (nrows d) <= 50)%Z /\
        row d (pred (nrows d)) = Some r /\
        midpoint r = c /\ f_mid r = f c /\
        (Qabs (f c) < (1 # 1000000) \/ error r < (1 # 1000000) \/
         Z.of_nat (nrows d) = 50%Z)
  end.
Proof.
  assert (H1 : f 0 * f 2 < 0) by (vm_compute; reflexivity).
  assert (H2 : 0 < (1 # 1000000)) by (vm_compute; reflexivity).
  assert (H3 : (0 < 50)%Z) by lia.
  split; [exact H1|]. split; [exact H2|]. split; [exact H3|].
  exact (bisection_method_terminates_C1 f 0 2 (1 # 1000000) 50 H1 H2 H3).
Defined.

(** ** C3 *)

(** C3: when [func(a) * func(b) >= 0] the call prints the error line and
    returns [(None, None)], whatever the tolerance and the budget are: no
    root, no table, and no iteration was run. *)
Theorem invalid_bracket_C3
  (func : Q -> Q) (a b tolerance : Q) (max_iterations : Z) :
  0 <= func a * func b ->
  bisection_method func a b tolerance max_iterations =
    ([ErrorLine], Returned None None) /\
  iterations_executed
    (fst (bisection_method func a b tolerance max_iterations)) = 0%nat.
Proof.
  intros H. apply Qgeb_ge in H. unfold bisection_method.
  rewrite H. split; reflexivity.
Qed.

Lemma C3_witness :
  0 <= f 0 * f 0 /\
  bisection_method f 0 0 (1 # 1000000) 50 =
    ([ErrorLine], Returned None None) /\
  iterations_executed (fst (bisection_method f 0 0 (1 # 1000000) 50)) = 0%nat.
Proof.
  assert (H : 0 <= f 0 * f 0) by (vm_compute; discriminate).
  split; [exact H|].
  exact (invalid_bracket_C3 f 0 0 (1 # 1000000) 50 H).
Defined.

(** ** C4 *)

(** C4, as stated, fails: line 48 divides by the midpoint without a
    guard.  On [f] over [-12, 4] the second midpoint is zero and the
    call raises [ZeroDivisionError]. *)
Lemma C4_counterexample :
  f (-12) * f 4 < 0 /\
  (exists st,
     state_at f (-12) 4 (1 # 1000000) 1 = Some st /\
     (var_a st + var_b st) / 2 == 0) /\
  snd (bisection_method f (-12) 4 (1 # 1000000) 50) =
    Raised ZeroDivisionError.
Proof.
  split; [vm_compute; reflexivity|].
  split; [|vm_compute; reflexivity].
  eexists. split; [vm_compute; reflexivity|].
  vm_compute; reflexivity.
Qed.

(** C4, amended: when the loop reaches an iteration after the first
    whose midpoint is zero, the division of line 48 raises
    [ZeroDivisionError], the call ends with that exception, and nothing
    is appended to the lists for that iteration. *)
Theorem zero_midpoint_raises_C4
  (func : Q -> Q) (a b tolerance : Q) (max_iterations : Z)
  (k : nat) (st : Locals) :
  func a * func b < 0 ->
  (0 < k)%nat -> (Z.of_nat k < max_iterations)%Z ->
  state_at func a b tolerance k = Some st ->
  (var_a st + var_b st) / 2 == 0 ->
  snd (bisection_method func a b tolerance max_iterations) =
    Raised ZeroDivisionError /\
  lists (snd (run func a b tolerance max_iterations)) = lists st.
Proof.
  intros Hab Hk Hn Hst Hc.
  assert (Hrun : run func a b tolerance max_iterations =
                 (Faulted ZeroDivisionError,
                  mkLocals (var_a st) (var_b st)
                           (Some ((var_a st + var_b st) / 2))
                           (c_old st) (lists st) (stdout st))).
  { unfold run, range.
    replace (Z.to_nat max_iterations)
      with (k + S (Z.to_nat max_iterations - S k))%nat by lia.
    rewrite range_from_app, for_range_app.
    unfold state_at in Hst.
    destruct (for_range func tolerance (range_from 0 k) (initial a b))
      as [[| |e] st0]; try discriminate.
    injection Hst as ->. simpl. unfold body.
    rewrite relative_error_zero by (auto; lia). reflexivity. }
  split; [|now rewrite Hrun].
  unfold bisection_method. apply Qgeb_lt in Hab. now rewrite Hab, Hrun.
Qed.

Lemma C4_witness :
  f (-12) * f 4 < 0 /\ (0 < 1)%nat /\ (Z.of_nat 1 < 50)%Z /\
  state_at f (-12) 4 (1 # 1000000) 1 = Some example_state /\
  (var_a example_state + var_b example_state) / 2 == 0 /\
  snd (bisection_method f (-12) 4 (1 # 1000000) 50) =
    Raised ZeroDivisionError /\
  lists (snd (run f (-12) 4 (1 # 1000000) 50)) = lists example_state.
Proof.
  assert (H1 : f (-12) * f 4 < 0) by (vm_compute; reflexivity).
  assert (H2 : (0 < 1)%nat) by lia.
  assert (H3 : (Z.of_nat 1 < 50)%Z) by lia.
  assert (H4 : state_at f (-12) 4 (1 # 1000000) 1 = Some example_state)
    by (vm_compute; reflexivity).
  assert (H5 : (var_a example_state + var_b example_state) / 2 == 0)
    by (vm_compute; reflexivity).
  repeat (split; [assumption|]).
  exact (zero_midpoint_raises_C4 f (-12) 4 (1 # 1000000) 50 1 example_state
           H1 H2 H3 H4 H5).
Defined.

(** ** C5 *)

(** C5, as stated, fails: nothing checks the tolerance or the budget.
    With tolerance [-1] on [f] over [0, 2] the call runs its three
    iterations and returns. *)
Lemma C5_counterexample :
  (-1 # 1) <= 0 /\
  exists out c d,
    bisection_method f 0 2 (-1 # 1) 3 = (out, Returned (Some c) (Some d)) /\
    iterations_executed out = 3%nat /\ nrows d = 3%nat.
Proof.
  split; [vm_compute; discriminate|].
  do 3 eexists.
  split; [vm_compute; reflexivity|].
  split; reflexivity.
Qed.

(** C5, amended: neither the tolerance nor the budget is checked.  On
    an accepted bracket, a call with a non-positive tolerance or a
    non-positive budget behaves as follows.  With a positive budget (so
    the tolerance is the non-positive one) the first iteration runs, no
    iteration passes the convergence test, and the call either uses up
    the whole budget and returns, or raises [ZeroDivisionError].  With a
    non-positive budget no iteration runs. *)
Theorem nonpositive_configuration_C5
  (func : Q -> Q) (a b tolerance : Q) (max_iterations : Z) :
  func a * func b < 0 ->
  tolerance <= 0 \/ (max_iterations <= 0)%Z ->
  if (0 <? max_iterations)%Z then
    (1 <= iterations_executed
            (fst (bisection_method func a b tolerance max_iterations)))%nat /\
    fst (run func a b tolerance max_iterations) <> Converged /\
    match snd (bisection_method func a b tolerance max_iterations) with
    | Raised e => e = ZeroDivisionError
    | Returned root df =>
        exists c d,
          root = Some c /\ df = Some d /\
          Z.of_nat (nrows d) = max_iterations
    end
  else
    iterations_executed
      (fst (bisection_method func a b tolerance max_iterations)) = 0%nat.
Proof.
  intros Hab Hcfg.
  rewrite (bisection_method_accepted _ _ _ _ _ Hab). cbn [fst snd].
  destruct (Z.ltb_spec 0 max_iterations) as [Hn|Hn].
  - assert (Ht : tolerance <= 0) by (destruct Hcfg; [assumption | lia]).
    destruct (run_trace func a b tolerance max_iterations) as (H1 & H2 & _).
    pose proof (rows_nonpositive_tolerance func tolerance
                  (Z.to_nat max_iterations) 0 a b a Ht) as Hnc.
    fold (trace func a b tolerance max_iterations) in Hnc.
    split; [|split].
    + pose proof (for_range_stdout func tolerance (range max_iterations)
                    (initial a b)) as Hout.
      fold (run func a b tolerance max_iterations) in Hout.
      cbn zeta in Hout. rewrite H2, nrows_columns in Hout.
      pose proof (trace_first func a b tolerance max_iterations Hn).
      destruct (snd (trace func a b tolerance max_iterations));
        [congruence|].
      simpl in Hout. change (nrows empty_lists) with 0%nat in Hout. lia.
    + now rewrite H1.
    + destruct (trace_last_row func a b tolerance max_iterations Hn)
        as (r & _ & Hc & _).
      destruct (trace_length func a b tolerance max_iterations Hn)
        as [_ Hfull].
      pose proof (rows_fault func tolerance (Z.to_nat max_iterations)
                    0 a b a) as Hfault.
      fold (trace func a b tolerance max_iterations) in Hfault.
      destruct (fst (trace func a b tolerance max_iterations)) as [| |e].
      * rewrite Hc.
        exists (midpoint r),
          (columns (snd (trace func a b tolerance max_iterations))).
        rewrite nrows_columns. auto.
      * congruence.
      * now apply Hfault.
  - unfold run, range.
    replace (Z.to_nat max_iterations) with 0%nat by lia. reflexivity.
Qed.

Lemma C5_witness :
  (f 0 * f 2 < 0 /\ ((-1 # 1) <= 0 \/ (3 <= 0)%Z) /\
   (1 <= iterations_executed
           (fst (bisection_method f 0 2 (-1 # 1) 3)))%nat /\
   fst (run f 0 2 (-1 # 1) 3) <> Converged /\
   match snd (bisection_method f 0 2 (-1 # 1) 3) with
   | Raised e => e = ZeroDivisionError
   | Returned root df =>
       exists c d,
         root = Some c /\ df = Some d /\ Z.of_nat (nrows d) = 3%Z
   end) /\
  (f 0 * f 2 < 0 /\ ((1 # 1000000) <= 0 \/ (0 <= 0)%Z) /\
   iterations_executed
     (fst (bisection_method f 0 2 (1 # 1000000) 0)) = 0%nat).
Proof.
  assert (H1 : f 0 * f 2 < 0) by (vm_compute; reflexivity).
  assert (H2 : (-1 # 1) <= 0 \/ (3 <= 0)%Z)
    by (left; vm_compute; discriminate).
  assert (H3 : (1 # 1000000) <= 0 \/ (0 <= 0)%Z) by (right; lia).
  split.
  - repeat (split; [assumption|]).
    exact (nonpositive_configuration_C5 f 0 2 (-1 # 1) 3 H1 H2).
  - repeat (split; [assumption|]).
    exact (nonpositive_configuration_C5 f 0 2 (1 # 1000000) 0 H1 H3).
Defined.

(** ** C6 *)

(** C6: the error field of the first row is the sentinel 100; the error
    field of every later row is [|(c - c_prev) / c| * 100] with [c] the
    row's midpoint, which is not zero, and [c_prev] the midpoint of the
    row before it. *)
Theorem relative_error_field_C6
  (func : Q -> Q) (a b tolerance : Q) (max_iterations : Z)
  (k : nat) (r : IterationRecord) :
  row (lists (snd (run func a b tolerance max_iterations))) k = Some r ->
  match k with
  | O => error r = 100
  | S j =>
      exists r_prev,
        row (lists (snd (run func a b tolerance max_iterations))) j
          = Some r_prev /\
        ~ midpoint r == 0 /\
        error r = Qabs ((midpoint r - midpoint r_prev) / midpoint r) * 100
  end.
Proof.
  destruct (run_trace func a b tolerance max_iterations) as (_ & -> & _).
  rewrite row_columns. unfold trace. intros Hr.
  destruct k as [|j].
  - apply rows_head in Hr as (_ & _ & He).
    rewrite relative_error_first in He. congruence.
  - rewrite row_columns.
    destruct (nth_error
                (snd (rows_from func tolerance (Z.to_nat max_iterations)
                        0 a b a)) j) as [r_prev|] eqn:Hp.
    + exists r_prev. split; [reflexivity|].
      pose proof (rows_follows func tolerance _ 0 a b a (Z.le_refl 0)
                    j r_prev r Hp Hr) as (_ & _ & Hc & He).
      now split.
    + apply nth_error_None in Hp.
      assert (Hs : nth_error
                     (snd (rows_from func tolerance
                             (Z.to_nat max_iterations) 0 a b a)) (S j)
                   <> None) by congruence.
      apply nth_error_Some in Hs. lia.
Qed.

Lemma C6_witness :
  row (lists (snd (run f 0 (3 # 2) (1 # 1000000) 2))) 1 = Some example_row2 /\
  exists r_prev,
    row (lists (snd (run f 0 (3 # 2) (1 # 1000000) 2))) 0 = Some r_prev /\
    ~ midpoint example_row2 == 0 /\
    error example_row2 =
      Qabs ((midpoint example_row2 - midpoint r_prev)
            / midpoint example_row2) * 100.
Proof.
  assert (H : row (lists (snd (run f 0 (3 # 2) (1 # 1000000) 2))) 1
              = Some example_row2) by (vm_compute; reflexivity).
  split; [exact H|].
  exact (relative_error_field_C6 f 0 (3 # 2) (1 # 1000000) 2 1 example_row2 H).
Defined.

(** ** C7 *)

(** C7, as stated, fails in its second half: the returned pair has no
    field that tells an exhausted call from a converged one.  On [f]
    over [0, 3/2] with a budget of one iteration, tolerance 2 converges
    and tolerance 1e-6 exhausts the budget, and both calls return the
    same root and the same table. *)
Lemma C7_counterexample :
  f 0 * f (3 # 2) < 0 /\
  fst (run f 0 (3 # 2) 2 1) = Converged /\
  fst (run f 0 (3 # 2) (1 # 1000000) 1) = Exhausted /\
  snd (bisection_method f 0 (3 # 2) 2 1) =
    snd (bisection_method f 0 (3 # 2) (1 # 1000000) 1).
Proof.
  split; [vm_compute; reflexivity|].
  repeat split; vm_compute; reflexivity.
Qed.

(** C7, amended: on an accepted bracket with a positive budget, a call
    that does not raise returns the midpoint of the last row; when the
    budget is exhausted the table has [max_iterations] rows.  The
    returned pair itself carries no flag: the loop ended by exhaustion
    exactly when the last row fails the convergence test against the
    tolerance of the call. *)
Theorem exhausted_returns_last_midpoint_C7
  (func : Q -> Q) (a b tolerance : Q) (max_iterations : Z) :
  func a * func b < 0 -> (0 < max_iterations)%Z ->
  (forall e, fst (run func a b tolerance max_iterations) <> Faulted e) ->
  exists c d r,
    snd (bisection_method func a b tolerance max_iterations) =
      Returned (Some c) (Some d) /\
    row d (pred (nrows d)) = Some r /\ midpoint r = c /\
    (fst (run func a b tolerance max_iterations) = Exhausted ->
     Z.of_nat (nrows d) = max_iterations) /\
    (fst (run func a b tolerance max_iterations) = Exhausted <->
     converged tolerance (f_mid r) (error r) = false).
Proof.
  intros Hab Hn Hnf.
  rewrite (bisection_method_accepted _ _ _ _ _ Hab). cbn [snd].
  destruct (run_trace func a b tolerance max_iterations) as (H1 & _ & _).
  rewrite H1 in *.
  destruct (trace_last_row func a b tolerance max_iterations Hn)
    as (r & Hr & Hc & _).
  destruct (trace_length func a b tolerance max_iterations Hn)
    as [_ Hfull].
  pose proof (rows_last func tolerance (Z.to_nat max_iterations) 0 a b a r Hr)
    as Hlast.
  fold (trace func a b tolerance max_iterations) in Hlast.
  exists (midpoint r),
    (columns (snd (trace func a b tolerance max_iterations))), r.
  rewrite nrows_columns, row_columns, Hc.
  destruct (fst (trace func a b tolerance max_iterations)) as [| |e].
  - repeat split; auto.
    destruct (converged tolerance (f_mid r) (error r)); [|reflexivity].
    destruct Hlast as [Hlast _]. now specialize (Hlast eq_refl).
  - repeat split; auto; try discriminate.
    destruct Hlast as [_ Hlast]. rewrite (Hlast eq_refl). discriminate.
  - now elim (Hnf e).
Qed.

Lemma C7_witness :
  f 0 * f (3 # 2) < 0 /\ (0 < 1)%Z /\
  (forall e, fst (run f 0 (3 # 2) (1 # 1000000) 1) <> Faulted e) /\
  exists c d r,
    snd (bisection_method f 0 (3 # 2) (1 # 1000000) 1) =
      Returned (Some c) (Some d) /\
    row d (pred (nrows d)) = Some r /\ midpoint r = c /\
    (fst (run f 0 (3 # 2) (1 # 1000000) 1) = Exhausted ->
     Z.of_nat (nrows d) = 1%Z) /\
    (fst (run f 0 (3 # 2) (1 # 1000000) 1) = Exhausted <->
     converged (1 # 1000000) (f_mid r) (error r) = false).
Proof.
  assert (H1 : f 0 * f (3 # 2) < 0) by (vm_compute; reflexivity).
  assert (H2 : (0 < 1)%Z) by lia.
  assert (H3 : forall e,
             fst (run f 0 (3 # 2) (1 # 1000000) 1) <> Faulted e)
    by (intros e; vm_compute; discriminate).
  repeat (split; [assumption|]).
  exact (exhausted_returns_last_midpoint_C7 f 0 (3 # 2) (1 # 1000000) 1
           H1 H2 H3).
Defined.

(** ** C8 *)

(** C8: in a returned table every column has as many entries as the loop
    made passes through its body ([passes]), which is also the number
    of iteration lines it printed (one line 59 per pass); that number
    is at most [max_iterations], and the "Iteration" column is
    1, 2, 3, ... *)
Theorem trace_length_and_indices_C8
  (func : Q -> Q) (a b tolerance : Q) (max_iterations : Z)
  (out : list Line) (root : option Q) (d : DataFrame) :
  bisection_method func a b tolerance max_iterations =
    (out, Returned root (Some d)) ->
  nrows d = passes func tolerance (range max_iterations) (initial a b) /\
  nrows d = iterations_executed out /\
  (Z.of_nat (nrows d) <= max_iterations)%Z /\
  iterations d = range_from 1 (nrows d) /\
  length (a_list d) = nrows d /\ length (b_list d) = nrows d /\
  length (c_list d) = nrows d /\ length (f_a_list d) = nrows d /\
  length (f_b_list d) = nrows d /\ length (f_c_list d) = nrows d /\
  length (err_list d) = nrows d.
Proof.
  intros Hres.
  assert (Hab : func a * func b < 0).
  { apply Qgeb_lt. unfold bisection_method in Hres.
    destruct (Qgeb (func a * func b) 0); [discriminate | reflexivity]. }
  rewrite (bisection_method_accepted _ _ _ _ _ Hab) in Hres.
  injection Hres as Hout Hres.
  assert (Hd : d = columns (snd (trace func a b tolerance max_iterations)) /\
               snd (trace func a b tolerance max_iterations) <> [] /\
               forall e,
                 fst (trace func a b tolerance max_iterations) <> Faulted e).
  { destruct (fst (trace func a b tolerance max_iterations));
      try discriminate;
      destruct (snd (trace func a b tolerance max_iterations));
      try discriminate;
      (destruct (last_midpoint _ _); [|discriminate]);
      injection Hres as _ <-;
      (split; [reflexivity | split; discriminate]). }
  destruct Hd as (-> & Hne & Hnf).
  destruct (run_trace func a b tolerance max_iterations) as (_ & H2 & _).
  pose proof (for_range_stdout func tolerance (range max_iterations)
                (initial a b)) as Hcount.
  fold (run func a b tolerance max_iterations) in Hcount.
  cbn zeta in Hcount. rewrite H2, Hout in Hcount.
  change (nrows (lists (initial a b))) with 0%nat in Hcount.
  change (iterations_executed (stdout (initial a b))) with 0%nat in Hcount.
  pose proof (passes_rows func tolerance (Z.to_nat max_iterations) 0
                (initial a b)) as Hpass.
  cbn zeta in Hpass. cbn [initial var_a var_b c_old] in Hpass.
  fold (range max_iterations) in Hpass.
  fold (trace func a b tolerance max_iterations) in Hpass.
  pose proof (rows_length func tolerance (Z.to_nat max_iterations) 0 a b a)
    as [Hlen _].
  pose proof (rows_numbering func tolerance (Z.to_nat max_iterations)
                0 a b a) as Hnum.
  fold (trace func a b tolerance max_iterations) in Hlen, Hnum.
  rewrite nrows_columns in *. unfold columns; cbn [iterations a_list b_list
    c_list f_a_list f_b_list f_c_list err_list].
  rewrite !length_map.
  assert (Hpos : (0 < length (snd (trace func a b tolerance
                                      max_iterations)))%nat).
  { destruct (snd (trace func a b tolerance max_iterations));
      [congruence | simpl; lia]. }
  assert (Hzero : match fst (trace func a b tolerance max_iterations) with
                  | Faulted _ => 1%nat
                  | _ => 0%nat
                  end = 0%nat).
  { destruct (fst (trace func a b tolerance max_iterations)) as [| |e];
      [reflexivity | reflexivity | now elim (Hnf e)]. }
  rewrite Hzero in Hpass.
  repeat split; auto; lia.
Qed.

Lemma C8_witness :
  bisection_method f 0 (3 # 2) (1 # 1000000) 2 =
    (example_output, Returned (Some (midpoint example_row2))
                              (Some example_table)) /\
  nrows example_table =
    passes f (1 # 1000000) (range 2) (initial 0 (3 # 2)) /\
  nrows example_table = iterations_executed example_output /\
  (Z.of_nat (nrows example_table) <= 2)%Z /\
  iterations example_table = range_from 1 (nrows example_table) /\
  length (a_list example_table) = nrows example_table /\
  length (b_list example_table) = nrows example_table /\
  length (c_list example_table) = nrows example_table /\
  length (f_a_list example_table) = nrows example_table /\
  length (f_b_list example_table) = nrows example_table /\
  length (f_c_list example_table) = nrows example_table /\
  length (err_list example_table) = nrows example_table.
Proof.
  assert (H : bisection_method f 0 (3 # 2) (1 # 1000000) 2 =
              (example_output, Returned (Some (midpoint example_row2))
                                        (Some example_table)))
    by (vm_compute; reflexivity).
  split; [exact H|].
  exact (trace_length_and_indices_C8 f 0 (3 # 2) (1 # 1000000) 2
           example_output (Some (midpoint example_row2)) example_table H).
Defined.

(** * The solver on floats *)

Module Float64Facts.

Import Float64.
Local Open Scope float_scope.

(** ** The order of floats *)










(** ** The loop appends the rows of [rows_from] *)





(** ** Two rows in a row *)




(** ** Splitting the loop *)



(** ** C2 *)




(** ** C9 *)




(** ** C10 *)




End Float64Facts.

(** * Further properties of the code *)

Lemma half_mid (x y : Q) : (x + y) / 2 == (x + y) * (1 # 2).
Proof. field. Qed.

(** ** Midpoints and rows *)

Section MoreRows.

Variable func : Q -> Q.
Variable tolerance : Q.

Local Abbreviation rows := (rows_from func tolerance).

Lemma rows_nth_ok (m : nat) (i : Z) (a b cp : Q) (k : nat)
  (r : IterationRecord) :
  nth_error (snd (rows m i a b cp)) k = Some r -> row_ok func r.
Proof.
  intros Hr. pose proof (rows_row_ok func tolerance m i a b cp) as H.
  rewrite Forall_forall in H. apply H. eapply nth_error_In; eauto.
Qed.

End MoreRows.

(** ** A bracket away from zero never divides by zero *)

Lemma rows_no_fault (func : Q -> Q) (tolerance lo hi : Q)
  (m : nat) (i : Z) (a b cp : Q) :
  0 < lo \/ hi < 0 ->
  lo <= a <= hi -> lo <= b <= hi ->
  forall e, fst (rows_from func tolerance m i a b cp) <> Faulted e.
Proof.
  intros Hz.
  functional induction (rows_from func tolerance m i a b cp);
    simpl; intros Ha Hb e'; try discriminate.
  - match goal with
    | E : relative_error _ _ _ = Raise _ |- _ =>
        apply relative_error_raise in E as (_ & Hc & _)
    end.
    rewrite half_mid in Hc. lra.
  - match goal with
    | E : rows_from _ _ _ _ _ _ _ = _ |- _ =>
        rewrite E in IHp; simpl in IHp
    end.
    apply IHp; unfold bisect;
      destruct (Qltb (func a * func ((a + b) / 2)) 0); simpl; auto;
      rewrite half_mid; lra.
Qed.

(** ** A looser tolerance stops earlier on the same rows *)

Lemma converged_looser (t1 t2 f_c err : Q) :
  t1 <= t2 -> converged t1 f_c err = true -> converged t2 f_c err = true.
Proof.
  intros Ht H. apply converged_true in H. apply converged_true.
  destruct H; [left | right]; lra.
Qed.

Lemma rows_tolerance_prefix (func : Q -> Q) (t1 t2 : Q) :
  t1 <= t2 ->
  forall (m : nat) (i : Z) (a b cp : Q),
  exists rest,
    snd (rows_from func t1 m i a b cp) =
    snd (rows_from func t2 m i a b cp) ++ rest.
Proof.
  intros Ht. induction m as [|m IH]; intros i a b cp.
  - now exists [].
  - rewrite !(rows_from_equation _ _ (S m)).
    destruct (relative_error i ((a + b) / 2) cp) as [err|e];
      [|now exists []].
    destruct (converged t2 (func ((a + b) / 2)) err) eqn:H2.
    + destruct (converged t1 (func ((a + b) / 2)) err) eqn:H1.
      * now exists [].
      * destruct (rows_from func t1 m _ _ _ _) as [ex rs].
        now exists rs.
    + destruct (converged t1 (func ((a + b) / 2)) err) eqn:H1.
      * apply (converged_looser t1 t2) in H1; [congruence | exact Ht].
      * destruct (IH (i + 1)%Z (fst (bisect func a b ((a + b) / 2)))
                     (snd (bisect func a b ((a + b) / 2)))
                     ((a + b) / 2)) as [rest Hrest].
        destruct (rows_from func t1 m _ _ _ _) as [ex1 rs1].
        destruct (rows_from func t2 m _ _ _ _) as [ex2 rs2].
        simpl in *. exists rest. now rewrite Hrest.
Qed.

(** ** What the loop prints *)

Lemma narration_cons (ex : Exit) (r : IterationRecord)
  (rs : list IterationRecord) :
  (rs = [] -> ex <> Converged) ->
  narration ex (r :: rs) = line_of r :: narration ex rs.
Proof.
  intros H. destruct rs; simpl; [|reflexivity].
  destruct ex; try reflexivity. now elim H.
Qed.

Lemma narration_map (ex : Exit) (rs : list IterationRecord)
  (r : IterationRecord) :
  nth_error rs (pred (length rs)) = Some r ->
  narration ex rs =
  map line_of rs ++ closing_lines ex (midpoint r) (f_mid r).
Proof.
  induction rs as [|r0 rs IH]; [discriminate|].
  destruct rs as [|r1 rs].
  - simpl. now intros [= <-].
  - intros H. change (narration ex (r0 :: r1 :: rs))
      with (line_of r0 :: narration ex (r1 :: rs)).
    rewrite IH by exact H. reflexivity.
Qed.

Lemma for_range_narration (func : Q -> Q) (tolerance : Q) (m : nat) :
  forall (i : Z) (st : Locals),
    let res := for_range func tolerance (range_from i m) st in
    let rr := rows_from func tolerance m i (var_a st) (var_b st) (c_old st) in
    stdout (snd res) = stdout st ++ narration (fst rr) (snd rr).
Proof.
  induction m as [|m IH]; intros i st; simpl.
  - now rewrite app_nil_r.
  - unfold body.
    destruct (relative_error i ((var_a st + var_b st) / 2) (c_old st))
      as [err|e] eqn:Herr; simpl; [|now rewrite app_nil_r].
    destruct (converged tolerance (func ((var_a st + var_b st) / 2)) err)
      eqn:Hconv; simpl.
    + now rewrite <- app_assoc.
    + pose proof (rows_empty_exit func tolerance m (i + 1)
                    (fst (bisect func (var_a st) (var_b st)
                                 ((var_a st + var_b st) / 2)))
                    (snd (bisect func (var_a st) (var_b st)
                                 ((var_a st + var_b st) / 2)))
                    ((var_a st + var_b st) / 2)) as Hne.
      unfold bisect in *.
      destruct (Qltb (func (var_a st) * func ((var_a st + var_b st) / 2)) 0);
        simpl in *;
        match goal with
        | |- context [for_range _ _ _ ?s] =>
            specialize (IH (i + 1)%Z s); simpl in IH
        end;
        destruct (rows_from func tolerance m (i + 1) _ _ _) as [ex rs];
        cbn [fst snd] in *; rewrite IH, narration_cons by exact Hne;
        cbn [stdout line_of iteration low high midpoint f_mid error];
        now rewrite <- app_assoc.
Qed.

(** ** Where a fault comes from *)

Lemma for_range_fault (func : Q -> Q) (tolerance : Q) (m : nat) :
  forall (i : Z) (st st' : Locals) (e : Exception),
    for_range func tolerance (range_from i m) st = (Faulted e, st') ->
    exists (k : nat) (stk : Locals),
      (k < m)%nat /\
      for_range func tolerance (range_from i k) st = (Exhausted, stk) /\
      (0 < i + Z.of_nat k)%Z /\
      (var_a stk + var_b stk) / 2 == 0 /\
      e = ZeroDivisionError.
Proof.
  induction m as [|m IH]; intros i st st' e; simpl; [discriminate|].
  destruct (body func tolerance i st) as [[| |e0] st1] eqn:Hb.
  - intros H. destruct (IH _ _ _ _ H) as (k & stk & Hk & Hrun & Hi & Hc & He).
    exists (S k), stk. simpl. rewrite Hb.
    repeat split; auto; lia.
  - discriminate.
  - intros [= <- <-]. exists 0%nat, st. simpl.
    unfold body in Hb.
    destruct (relative_error i ((var_a st + var_b st) / 2) (c_old st))
      as [err|e1] eqn:Herr.
    + destruct (converged _ _ _); [discriminate|].
      destruct (Qltb _ _); discriminate.
    + injection Hb as <- _.
      apply relative_error_raise in Herr as (Hi & Hc & ->).
      repeat split; auto; lia.
Qed.

(** ** A larger budget after the loop has stopped *)

Lemma run_budget (func : Q -> Q) (a b tolerance : Q) (n n' : Z) :
  (n <= n')%Z ->
  fst (run func a b tolerance n) <> Exhausted ->
  run func a b tolerance n' = run func a b tolerance n.
Proof.
  intros Hn Hex. unfold run, range in *.
  replace (Z.to_nat n')
    with (Z.to_nat n + (Z.to_nat n' - Z.to_nat n))%nat by lia.
  rewrite range_from_app, for_range_app.
  destruct (for_range func tolerance (range_from 0 (Z.to_nat n))
              (initial a b)) as [[| |e] st]; simpl in *; congruence.
Qed.

(** ** The example function *)

Lemma f_factor (x : Q) : f x == (x - 1) * (x + 2) * (x - 3).
Proof. unfold f. simpl. ring. Qed.

Lemma f_negative_below (x : Q) : x < -2 # 1 -> f x < 0.
Proof.
  intros H. rewrite f_factor.
  assert (0 < (x - 1) * (x + 2)) by nra. nra.
Qed.

Lemma f_positive_left (x : Q) : -2 # 1 < x -> x < 1 -> 0 < f x.
Proof.
  intros H1 H2. rewrite f_factor.
  assert ((x - 1) * (x + 2) < 0) by nra. nra.
Qed.

Lemma f_negative_right (x : Q) : 1 < x -> x < 3 -> f x < 0.
Proof.
  intros H1 H2. rewrite f_factor.
  assert (0 < (x - 1) * (x + 2)) by nra. nra.
Qed.

Lemma f_positive_above (x : Q) : 3 < x -> 0 < f x.
Proof.
  intros H. rewrite f_factor.
  assert (0 < (x - 1) * (x + 2)) by nra. nra.
Qed.

Lemma f_zero_at (x : Q) : x == -2 # 1 \/ x == 1 \/ x == 3 -> f x == 0.
Proof.
  intros H. rewrite f_factor. destruct H as [H|[H|H]]; rewrite H; ring.
Qed.

(** The sign of [f] on one side of each of its roots, as a table: which
    of the four open regions [x] is in, or which root it is. *)
Lemma f_regions (x : Q) :
  (x < -2 # 1 /\ f x < 0) \/ (x == -2 # 1 /\ f x == 0) \/
  (-2 # 1 < x /\ x < 1 /\ 0 < f x) \/ (x == 1 /\ f x == 0) \/
  (1 < x /\ x < 3 /\ f x < 0) \/ (x == 3 /\ f x == 0) \/
  (3 < x /\ 0 < f x).
Proof.
  destruct (Q_dec x (-2 # 1)) as [[H|H]|H].
  - left. split; [exact H | now apply f_negative_below].
  - destruct (Q_dec x 1) as [[H1|H1]|H1].
    + right; right; left. repeat split; auto. now apply f_positive_left.
    + destruct (Q_dec x 3) as [[H3|H3]|H3].
      * do 4 right; left. repeat split; auto. now apply f_negative_right.
      * do 6 right. split; [exact H3 | now apply f_positive_above].
      * do 5 right; left. split; [exact H3 | apply f_zero_at; auto].
    + do 3 right; left. split; [exact H1 | apply f_zero_at; auto].
  - right; left. split; [exact H | apply f_zero_at; auto].
Qed.

Lemma f_bracket_ordered (a b : Q) :
  a <= b -> f a * f b < 0 ->
  exists z, f z == 0 /\ a < z /\ z < b.
Proof.
  intros Hab Hs.
  destruct (f_regions a) as
    [[A Fa]|[[A Fa]|[(A1 & A2 & Fa)|[[A Fa]|[(A1 & A2 & Fa)|[[A Fa]|[A Fa]]]]]]];
  destruct (f_regions b) as
    [[B Fb]|[[B Fb]|[(B1 & B2 & Fb)|[[B Fb]|[(B1 & B2 & Fb)|[[B Fb]|[B Fb]]]]]]];
  try (exfalso; nra);
  try (exists (-2 # 1); split; [reflexivity | split; lra]);
  try (exists 1; split; [reflexivity | split; lra]);
  try (exists 3; split; [reflexivity | split; lra]).
Qed.

(** * Further theorems *)

(** ** [f], lines 13-17 *)

(** X1: the zeros of [f] are exactly -2, 1 and 3. *)
Theorem f_roots (x : Q) :
  f x == 0 <-> x == -2 # 1 \/ x == 1 \/ x == 3.
Proof.
  split; [|apply f_zero_at].
  intros H.
  destruct (f_regions x) as
    [[A Fx]|[[A Fx]|[(A1 & A2 & Fx)|[[A Fx]|[(A1 & A2 & Fx)|[[A Fx]|[A Fx]]]]]]];
    auto; lra.
Qed.

(** X2: a bracket that the test of line 38 accepts for [f] has a zero of
    [f] strictly between its endpoints, in whichever order they are
    given. *)
Theorem f_accepted_bracket_has_root (a b : Q) :
  f a * f b < 0 ->
  exists z, f z == 0 /\ Qmin a b < z /\ z < Qmax a b.
Proof.
  intros Hs. destruct (Qlt_le_dec b a) as [Hba|Hab].
  - assert (Hs' : f b * f a < 0) by lra.
    destruct (f_bracket_ordered b a (Qlt_le_weak _ _ Hba) Hs')
      as (z & Hz & H1 & H2).
    exists z. split; [exact Hz|].
    rewrite (Q.min_r a b) by lra. rewrite (Q.max_l a b) by lra. now split.
  - destruct (f_bracket_ordered a b Hab Hs) as (z & Hz & H1 & H2).
    exists z. split; [exact Hz|].
    rewrite (Q.min_l a b) by lra. rewrite (Q.max_r a b) by lra. now split.
Qed.

Lemma f_accepted_bracket_has_root_witness :
  f 0 * f 2 < 0 /\
  exists z, f z == 0 /\ Qmin 0 2 < z /\ z < Qmax 0 2.
Proof.
  assert (H : f 0 * f 2 < 0) by (vm_compute; reflexivity).
  split; [exact H|].
  exact (f_accepted_bracket_has_root 0 2 H).
Defined.

(** ** The table, lines 46-57 and 66-69 *)

(** X3: the rows of the loop's lists agree with each other.  In every
    row the midpoint is [(a + b) / 2] and the three function columns
    hold [func] at [a], [b] and the midpoint; the first row starts from
    the endpoints of the call; and the next row keeps [a] and takes the
    midpoint as [b] when [f(a) * f(c) < 0], and otherwise takes the
    midpoint as [a] and keeps [b]. *)
Theorem table_rows_consistent
  (func : Q -> Q) (a b tolerance : Q) (max_iterations : Z)
  (k : nat) (r : IterationRecord) :
  row (lists (snd (run func a b tolerance max_iterations))) k = Some r ->
  midpoint r = (low r + high r) / 2 /\
  f_low r = func (low r) /\ f_high r = func (high r) /\
  f_mid r = func (midpoint r) /\
  (k = 0%nat -> low r = a /\ high r = b) /\
  (forall r',
     row (lists (snd (run func a b tolerance max_iterations))) (S k)
       = Some r' ->
     (f_low r * f_mid r < 0 -> low r' = low r /\ high r' = midpoint r) /\
     (0 <= f_low r * f_mid r -> low r' = midpoint r /\ high r' = high r)).
Proof.
  destruct (run_trace func a b tolerance max_iterations) as (_ & -> & _).
  rewrite row_columns. unfold trace. intros Hr.
  destruct (rows_nth_ok _ _ _ _ _ _ _ _ _ Hr) as (Hm & Hfa & Hfb & Hfc).
  split; [exact Hm|]. split; [exact Hfa|]. split; [exact Hfb|].
  split; [exact Hfc|]. split.
  - intros ->. apply rows_head in Hr. tauto.
  - intros r' Hr'. rewrite row_columns in Hr'.
    destruct (rows_follows func tolerance _ 0 a b a (Z.le_refl 0) k r r'
                Hr Hr') as (_ & Hb & _).
    unfold bisect in Hb. rewrite <- Hfa, <- Hfc in Hb.
    split; intros Hs.
    + apply Qltb_lt in Hs. rewrite Hs in Hb. split; congruence.
    + apply Qltb_ge in Hs. rewrite Hs in Hb. split; congruence.
Qed.

Lemma table_rows_consistent_witness :
  row (lists (snd (run f 0 (3 # 2) (1 # 1000000) 2))) 0 = Some example_row1 /\
  row (lists (snd (run f 0 (3 # 2) (1 # 1000000) 2))) 1 = Some example_row2 /\
  0 <= f_low example_row1 * f_mid example_row1 /\
  midpoint example_row1 = (low example_row1 + high example_row1) / 2 /\
  f_mid example_row1 = f (midpoint example_row1) /\
  low example_row1 = 0 /\ high example_row1 = 3 # 2 /\
  low example_row2 = midpoint example_row1 /\
  high example_row2 = high example_row1.
Proof.
  assert (H1 : row (lists (snd (run f 0 (3 # 2) (1 # 1000000) 2))) 0
               = Some example_row1) by (vm_compute; reflexivity).
  assert (H2 : row (lists (snd (run f 0 (3 # 2) (1 # 1000000) 2))) 1
               = Some example_row2) by (vm_compute; reflexivity).
  assert (H3 : 0 <= f_low example_row1 * f_mid example_row1)
    by (vm_compute; discriminate).
  repeat (split; [assumption|]).
  destruct (table_rows_consistent f 0 (3 # 2) (1 # 1000000) 2 0
              example_row1 H1) as (Hm & _ & _ & Hfc & Hfirst & Hnext).
  destruct (Hfirst eq_refl) as [Hl Hh].
  destruct (Hnext example_row2 H2) as [_ Hkeep].
  destruct (Hkeep H3) as [Hl' Hh'].
  exact (conj Hm (conj Hfc (conj Hl (conj Hh (conj Hl' Hh'))))).
Defined.

(** ** When the loop stops, lines 45 and 61-64 *)

(** X9: the loop stops at the first row that passes the test of line
    61: every row that has a successor fails it. *)
Theorem stops_at_first_convergence
  (func : Q -> Q) (a b tolerance : Q) (max_iterations : Z)
  (k : nat) (r : IterationRecord) :
  row (lists (snd (run func a b tolerance max_iterations))) k = Some r ->
  (S k < nrows (lists (snd (run func a b tolerance max_iterations))))%nat ->
  converged tolerance (f_mid r) (error r) = false.
Proof.
  destruct (run_trace func a b tolerance max_iterations) as (_ & -> & _).
  rewrite row_columns, nrows_columns. unfold trace. intros Hr Hk.
  destruct (nth_error (snd (rows_from func tolerance
                              (Z.to_nat max_iterations) 0 a b a)) (S k))
    as [r'|] eqn:Hr'.
  - now destruct (rows_follows func tolerance _ 0 a b a (Z.le_refl 0)
                    k r r' Hr Hr').
  - apply nth_error_None in Hr'. lia.
Qed.

Lemma stops_at_first_convergence_witness :
  row (lists (snd (run f 0 (3 # 2) (1 # 1000000) 2))) 0 = Some example_row1 /\
  (1 < nrows (lists (snd (run f 0 (3 # 2) (1 # 1000000) 2))))%nat /\
  converged (1 # 1000000) (f_mid example_row1) (error example_row1) = false.
Proof.
  assert (H1 : row (lists (snd (run f 0 (3 # 2) (1 # 1000000) 2))) 0
               = Some example_row1) by (vm_compute; reflexivity).
  assert (H2 : (1 < nrows (lists (snd (run f 0 (3 # 2) (1 # 1000000) 2))))%nat)
    by (vm_compute; lia).
  repeat (split; [assumption|]).
  exact (stops_at_first_convergence f 0 (3 # 2) (1 # 1000000) 2 0
           example_row1 H1 H2).
Defined.

(** X10: once a call has stopped before its budget ran out, by [break]
    or by an exception, a larger budget changes nothing: the output and
    the result are the same. *)
Theorem larger_budget_same_result
  (func : Q -> Q) (a b tolerance : Q) (n n' : Z) :
  fst (run func a b tolerance n) <> Exhausted -> (n <= n')%Z ->
  bisection_method func a b tolerance n' =
  bisection_method func a b tolerance n.
Proof.
  intros Hex Hn. unfold bisection_method.
  now rewrite (run_budget func a b tolerance n n' Hn Hex).
Qed.

Lemma larger_budget_same_result_witness :
  fst (run f 0 2 (1 # 1000000) 1) <> Exhausted /\ (1 <= 50)%Z /\
  bisection_method f 0 2 (1 # 1000000) 50 =
  bisection_method f 0 2 (1 # 1000000) 1.
Proof.
  assert (H1 : fst (run f 0 2 (1 # 1000000) 1) <> Exhausted)
    by (vm_compute; discriminate).
  assert (H2 : (1 <= 50)%Z) by lia.
  repeat (split; [assumption|]).
  exact (larger_budget_same_result f 0 2 (1 # 1000000) 1 50 H1 H2).
Defined.

(** X11: a looser tolerance only cuts the table short: every row made
    with the larger tolerance is the same row of the table made with
    the smaller one. *)
Theorem looser_tolerance_prefix
  (func : Q -> Q) (a b t1 t2 : Q) (max_iterations : Z)
  (k : nat) (r : IterationRecord) :
  t1 <= t2 ->
  row (lists (snd (run func a b t2 max_iterations))) k = Some r ->
  row (lists (snd (run func a b t1 max_iterations))) k = Some r.
Proof.
  intros Ht.
  destruct (run_trace func a b t1 max_iterations) as (_ & -> & _).
  destruct (run_trace func a b t2 max_iterations) as (_ & -> & _).
  rewrite !row_columns. unfold trace. intros Hr.
  destruct (rows_tolerance_prefix func t1 t2 Ht (Z.to_nat max_iterations)
              0 a b a) as [rest ->].
  rewrite nth_error_app1; [exact Hr|].
  apply nth_error_Some. congruence.
Qed.

Lemma looser_tolerance_prefix_witness :
  (1 # 1000000) <= 2 /\
  row (lists (snd (run f 0 (3 # 2) 2 2))) 0 = Some example_row1 /\
  row (lists (snd (run f 0 (3 # 2) (1 # 1000000) 2))) 0 = Some example_row1.
Proof.
  assert (H1 : (1 # 1000000) <= 2) by (vm_compute; discriminate).
  assert (H2 : row (lists (snd (run f 0 (3 # 2) 2 2))) 0 = Some example_row1)
    by (vm_compute; reflexivity).
  repeat (split; [assumption|]).
  exact (looser_tolerance_prefix f 0 (3 # 2) (1 # 1000000) 2 2 0
           example_row1 H1 H2).
Defined.

(** ** How a call on an accepted bracket can fail, lines 45-48 and 84 *)

(** X12: on an accepted bracket the read of [c] at line 84 fails
    exactly when the budget is not positive, that is when the loop body
    never ran. *)
Theorem unbound_iff_empty_budget
  (func : Q -> Q) (a b tolerance : Q) (max_iterations : Z) :
  func a * func b < 0 ->
  (snd (bisection_method func a b tolerance max_iterations) =
     Raised UnboundLocalError
   <-> (max_iterations <= 0)%Z).
Proof.
  intros Hacc. rewrite (bisection_method_accepted _ _ _ _ _ Hacc).
  cbn [snd]. split.
  - intros H. destruct (Z.leb_spec max_iterations 0) as [|Hn]; [assumption|].
    exfalso.
    destruct (trace_last_row func a b tolerance max_iterations Hn)
      as (r & _ & Hc & _).
    pose proof (rows_fault func tolerance (Z.to_nat max_iterations) 0 a b a)
      as Hf.
    fold (trace func a b tolerance max_iterations) in Hf.
    rewrite Hc in H.
    destruct (fst (trace func a b tolerance max_iterations)) as [| |e];
      try discriminate.
    specialize (Hf e eq_refl). congruence.
  - intros Hn. unfold trace.
    replace (Z.to_nat max_iterations) with 0%nat by lia. reflexivity.
Qed.

Lemma unbound_iff_empty_budget_witness :
  f 0 * f 2 < 0 /\
  (snd (bisection_method f 0 2 (1 # 1000000) 0) = Raised UnboundLocalError
   <-> (0 <= 0)%Z).
Proof.
  assert (H : f 0 * f 2 < 0) by (vm_compute; reflexivity).
  split; [exact H|].
  exact (unbound_iff_empty_budget f 0 2 (1 # 1000000) 0 H).
Defined.

(** X13: a call raises [ZeroDivisionError] only if the loop reached an
    iteration after the first, within the budget, at which the midpoint
    of the current bracket is zero. *)
Theorem fault_only_at_zero_midpoint
  (func : Q -> Q) (a b tolerance : Q) (max_iterations : Z) :
  snd (bisection_method func a b tolerance max_iterations) =
    Raised ZeroDivisionError ->
  exists (k : nat) (st : Locals),
    (0 < k)%nat /\ (Z.of_nat k < max_iterations)%Z /\
    state_at func a b tolerance k = Some st /\
    (var_a st + var_b st) / 2 == 0.
Proof.
  unfold bisection_method.
  destruct (Qgeb (func a * func b) 0); [discriminate|].
  destruct (run func a b tolerance max_iterations) as [ex st'] eqn:Hrun.
  cbn [snd]. intros H.
  assert (Hf : exists e, ex = Faulted e).
  { destruct ex as [| |e]; [| |now exists e];
      destruct (var_c st'); discriminate. }
  destruct Hf as [e ->].
  unfold run, range in Hrun.
  destruct (for_range_fault func tolerance _ _ _ _ _ Hrun)
    as (k & stk & Hk & Hpre & Hi & Hc & _).
  exists k, stk. unfold state_at. rewrite Hpre.
  repeat split; auto; lia.
Qed.

Lemma fault_only_at_zero_midpoint_witness :
  snd (bisection_method f (-12) 4 (1 # 1000000) 50) =
    Raised ZeroDivisionError /\
  exists (k : nat) (st : Locals),
    (0 < k)%nat /\ (Z.of_nat k < 50)%Z /\
    state_at f (-12) 4 (1 # 1000000) k = Some st /\
    (var_a st + var_b st) / 2 == 0.
Proof.
  assert (H : snd (bisection_method f (-12) 4 (1 # 1000000) 50) =
              Raised ZeroDivisionError) by (vm_compute; reflexivity).
  split; [exact H|].
  exact (fault_only_at_zero_midpoint f (-12) 4 (1 # 1000000) 50 H).
Defined.

(** X14: on an accepted bracket whose endpoints are both positive or
    both negative, a call with a positive budget always returns a root
    and a table: the division of line 48 cannot fail there. *)
Theorem bracket_away_from_zero_returns
  (func : Q -> Q) (a b tolerance : Q) (max_iterations : Z) :
  func a * func b < 0 -> (0 < max_iterations)%Z ->
  (0 < a /\ 0 < b) \/ (a < 0 /\ b < 0) ->
  exists c d,
    snd (bisection_method func a b tolerance max_iterations) =
      Returned (Some c) (Some d).
Proof.
  intros Hacc Hn Hz.
  rewrite (bisection_method_accepted _ _ _ _ _ Hacc). cbn [snd].
  destruct (trace_last_row func a b tolerance max_iterations Hn)
    as (r & _ & Hc & _).
  assert (Hnf : forall e,
             fst (trace func a b tolerance max_iterations) <> Faulted e).
  { unfold trace.
    apply (rows_no_fault func tolerance (Qmin a b) (Qmax a b)).
    - destruct Hz as [[Ha Hb]|[Ha Hb]].
      + left. apply Q.min_glb_lt; assumption.
      + right. apply Q.max_lub_lt; assumption.
    - split; [apply Q.le_min_l | apply Q.le_max_l].
    - split; [apply Q.le_min_r | apply Q.le_max_r]. }
  rewrite Hc.
  destruct (fst (trace func a b tolerance max_iterations)) as [| |e];
    [eauto | eauto | now elim (Hnf e)].
Qed.

Lemma bracket_away_from_zero_returns_witness :
  f (1 # 2) * f 2 < 0 /\ (0 < 3)%Z /\
  ((0 < (1 # 2) /\ 0 < 2) \/ ((1 # 2) < 0 /\ 2 < 0)) /\
  exists c d,
    snd (bisection_method f (1 # 2) 2 (1 # 1000000) 3) =
      Returned (Some c) (Some d).
Proof.
  assert (H1 : f (1 # 2) * f 2 < 0) by (vm_compute; reflexivity).
  assert (H2 : (0 < 3)%Z) by lia.
  assert (H3 : (0 < (1 # 2) /\ 0 < 2) \/ ((1 # 2) < 0 /\ 2 < 0))
    by (left; split; vm_compute; reflexivity).
  repeat (split; [assumption|]).
  exact (bracket_away_from_zero_returns f (1 # 2) 2 (1 # 1000000) 3
           H1 H2 H3).
Defined.

(** ** What is printed, lines 59 and 62-63 *)

(** X15: the output of a call that returns is one line per row of the
    table, showing that row's iteration number, [a], [b], [c], [f(c)]
    and error, followed by the two "root found" lines for the returned
    root exactly when the loop ended by [break]. *)
Theorem stdout_matches_table
  (func : Q -> Q) (a b tolerance : Q) (max_iterations : Z)
  (out : list Line) (c : Q) (d : DataFrame) :
  bisection_method func a b tolerance max_iterations =
    (out, Returned (Some c) (Some d)) ->
  exists rs,
    d = columns rs /\
    out = map line_of rs ++
          closing_lines (fst (run func a b tolerance max_iterations))
                        c (func c).
Proof.
  intros Hres.
  assert (Hacc : func a * func b < 0).
  { apply Qgeb_lt. unfold bisection_method in Hres.
    destruct (Qgeb (func a * func b) 0); [discriminate | reflexivity]. }
  rewrite (bisection_method_accepted _ _ _ _ _ Hacc) in Hres.
  injection Hres as Hout Hres.
  assert (Hret : last_midpoint (snd (trace func a b tolerance
                                       max_iterations)) None = Some c /\
                 d = columns (snd (trace func a b tolerance
                                     max_iterations))).
  { destruct (fst (trace func a b tolerance max_iterations));
      try discriminate;
      (destruct (last_midpoint _ _) as [c'|]; [|discriminate]);
      injection Hres as <- <-; auto. }
  destruct Hret as [Hc ->].
  exists (snd (trace func a b tolerance max_iterations)).
  split; [reflexivity|].
  apply last_midpoint_some in Hc as (r & Hr & <-).
  destruct (run_trace func a b tolerance max_iterations) as (-> & _ & _).
  pose proof (for_range_narration func tolerance (Z.to_nat max_iterations)
                0 (initial a b)) as Hn.
  cbn zeta in Hn. unfold run, range in Hout. rewrite Hn in Hout.
  rewrite <- Hout. cbn [stdout initial app var_a var_b c_old].
  fold (trace func a b tolerance max_iterations).
  rewrite (narration_map _ _ r Hr).
  destruct (rows_nth_ok _ _ _ _ _ _ _ _ _ Hr) as (_ & _ & _ & ->).
  reflexivity.
Qed.

Lemma stdout_matches_table_witness :
  bisection_method f 0 2 (1 # 1000000) 50 =
    (fst (bisection_method f 0 2 (1 # 1000000) 50),
     Returned (Some (2 # 2))
              (Some (lists (snd (run f 0 2 (1 # 1000000) 50))))) /\
  exists rs,
    lists (snd (run f 0 2 (1 # 1000000) 50)) = columns rs /\
    fst (bisection_method f 0 2 (1 # 1000000) 50) =
      map line_of rs ++
      closing_lines (fst (run f 0 2 (1 # 1000000) 50)) (2 # 2) (f (2 # 2)).
Proof.
  assert (H : bisection_method f 0 2 (1 # 1000000) 50 =
              (fst (bisection_method f 0 2 (1 # 1000000) 50),
               Returned (Some (2 # 2))
                        (Some (lists (snd (run f 0 2 (1 # 1000000) 50))))))
    by (vm_compute; reflexivity).
  split; [exact H|].
  exact (stdout_matches_table f 0 2 (1 # 1000000) 50 _ _ _ H).
Defined.

(** ** A larger budget extends the table *)

Lemma rows_budget_prefix (func : Q -> Q) (tolerance : Q) (m : nat) :
  forall (m' : nat) (i : Z) (a b cp : Q),
    (m <= m')%nat ->
    exists rest,
      snd (rows_from func tolerance m' i a b cp) =
      snd (rows_from func tolerance m i a b cp) ++ rest.
Proof.
  induction m as [|m IH]; intros m' i a b cp Hm.
  - now exists (snd (rows_from func tolerance m' i a b cp)).
  - destruct m' as [|m']; [lia|].
    rewrite !(rows_from_equation _ _ (S _)).
    destruct (relative_error i ((a + b) / 2) cp) as [err|e];
      [|now exists []].
    destruct (converged tolerance (func ((a + b) / 2)) err);
      [now exists []|].
    destruct (IH m' (i + 1)%Z (fst (bisect func a b ((a + b) / 2)))
                 (snd (bisect func a b ((a + b) / 2))) ((a + b) / 2))
      as [rest Hrest]; [lia|].
    destruct (rows_from func tolerance m' _ _ _ _) as [ex1 rs1].
    destruct (rows_from func tolerance m _ _ _ _) as [ex2 rs2].
    simpl in *. exists rest. now rewrite Hrest.
Qed.

(** X17: a larger budget only extends the table: every row made within
    the smaller budget is the same row of the table made with the
    larger one. *)
Theorem larger_budget_extends
  (func : Q -> Q) (a b tolerance : Q) (n n' : Z)
  (k : nat) (r : IterationRecord) :
  (n <= n')%Z ->
  row (lists (snd (run func a b tolerance n))) k = Some r ->
  row (lists (snd (run func a b tolerance n'))) k = Some r.
Proof.
  intros Hn.
  destruct (run_trace func a b tolerance n) as (_ & -> & _).
  destruct (run_trace func a b tolerance n') as (_ & -> & _).
  rewrite !row_columns. unfold trace. intros Hr.
  destruct (rows_budget_prefix func tolerance (Z.to_nat n) (Z.to_nat n')
              0 a b a ltac:(lia)) as [rest ->].
  rewrite nth_error_app1; [exact Hr|].
  apply nth_error_Some. congruence.
Qed.

Lemma larger_budget_extends_witness :
  (2 <= 3)%Z /\
  row (lists (snd (run f 0 (3 # 2) (1 # 1000000) 2))) 1 = Some example_row2 /\
  row (lists (snd (run f 0 (3 # 2) (1 # 1000000) 3))) 1 = Some example_row2.
Proof.
  assert (H1 : (2 <= 3)%Z) by lia.
  assert (H2 : row (lists (snd (run f 0 (3 # 2) (1 # 1000000) 2))) 1
               = Some example_row2) by (vm_compute; reflexivity).
  repeat (split; [assumption|]).
  exact (larger_budget_extends f 0 (3 # 2) (1 # 1000000) 2 3 1
           example_row2 H1 H2).
Defined.
